(** * Engine Test Data Explorer: ingestion, time normalisation and summaries

    A shallow embedding of [engine_test_data_explorer.py].  The module-level
    helpers ([unique_numeric_columns], [extract_datetime_col], ...) become
    functions; the methods of the main window become functions over a record
    holding the widget state they read and write.  Python exceptions are the
    [Raise] case of a small error monad, and a [try/except Exception] is a
    match on it.

    Numbers: a binary64 value is idealised as an exact rational ([Qc]) or
    [NaN]; rounding and infinities are outside the model.  The routines of
    pandas and of the Python runtime that the source calls but does not
    define are the fields of the class [Runtime]. *)

From Stdlib Require Import String Ascii List ZArith QArith Qcanon Bool Lia.
From stdpp Require Import gmap strings list pretty.

Local Open Scope string_scope.
Local Open Scope list_scope.

(** ** Exceptions and the error monad *)

Inductive exn : Type :=
| NameError (name : string)
| KeyError (key : string)
| IndexError (msg : string)
| ValueError (msg : string)
| TypeError (msg : string)
| AttributeError (msg : string)
| FileNotFoundError (msg : string).

(** [str(e)] as it appears in the load error entries. *)
Definition str_exn (e : exn) : string :=
  match e with
  | NameError n => "name '" ++ n ++ "' is not defined"
  | KeyError k => "'" ++ k ++ "'"
  | IndexError m => m
  | ValueError m => m
  | TypeError m => m
  | AttributeError m => m
  | FileNotFoundError m => m
  end.

Inductive result (A : Type) : Type :=
| Ok (a : A)
| Raise (e : exn).

Arguments Ok {A} a.
Arguments Raise {A} e.

Definition rbind {A B : Type} (m : result A) (k : A -> result B) : result B :=
  match m with
  | Ok a => k a
  | Raise e => Raise e
  end.

Notation "'let*' x ':=' m 'in' k" := (rbind m (fun x => k))
  (at level 10, x name, m at level 100, k at level 200).

(** ** Floating-point values and table cells *)

Inductive float : Type :=
| NaN
| Num (q : Qc).

(** [x >= y] and [x <= y] on floats: any comparison with NaN is false. *)
Definition fge (x y : float) : bool :=
  match x, y with
  | Num a, Num b => bool_decide (b <= a)%Qc
  | _, _ => false
  end.

Definition fle (x y : float) : bool :=
  match x, y with
  | Num a, Num b => bool_decide (a <= b)%Qc
  | _, _ => false
  end.

(** A cell of a parsed table: text (object dtype) or a number, possibly NaN. *)
Inductive cell : Type :=
| CStr (s : string)
| CFloat (x : float).

(** A DataFrame is its ordered columns; the row index is the default
    [RangeIndex], so a Series is the list of its values. *)
Definition DataFrame : Type := list (string * list cell).

Definition df_columns (df : DataFrame) : list string := map fst df.

(** [col in df.columns] *)
Definition in_columns (col : string) (df : DataFrame) : bool :=
  bool_decide (col ∈ df_columns df).

(** [df[col]]: the column, or [KeyError]. *)
Fixpoint df_getitem (df : DataFrame) (col : string) : result (list cell) :=
  match df with
  | [] => Raise (KeyError col)
  | (c, xs) :: rest => if String.eqb c col then Ok xs else df_getitem rest col
  end.

(** [len(df)]: the number of rows. *)
Definition df_len (df : DataFrame) : nat :=
  match df with
  | [] => 0
  | (_, xs) :: _ => length xs
  end.

(** Every column has [len(df)] values. *)
Definition df_wf (df : DataFrame) : Prop :=
  Forall (fun cx => length (snd cx) = df_len df) df.

(** ** The runtime the source relies on *)

Class Runtime : Type := {
  (** [pd.read_csv(path, sep='\t', nrows=n, decimal=d)] *)
  read_csv : string -> option nat -> string -> result DataFrame;
  (** [pd.to_datetime] on one text value: [None] when the text cannot be
      parsed (the call raises), [Some None] for NaT, otherwise nanoseconds
      since the epoch.  A column is converted value by value: what one text
      parses to does not depend on its neighbours. *)
  datetime_of_string : string -> option (option Z);
  (** [pd.to_datetime] on one number. *)
  datetime_of_number : Qc -> option (option Z);
  (** [pd.to_numeric] on one text value; [None] when it is not a number. *)
  numeric_of_string : string -> option float;
  (** Python's [float(s)]; [None] when it raises [ValueError]. *)
  py_float : string -> option float;
  (** binary64 square root. *)
  fsqrt : Qc -> Qc
}.

(** ** String helpers of the Python runtime *)

Definition lower_ascii (c : ascii) : ascii :=
  let n := nat_of_ascii c in
  if (65 <=? n)%nat && (n <=? 90)%nat then ascii_of_nat (n + 32) else c.

Fixpoint lower (s : string) : string :=
  match s with
  | EmptyString => EmptyString
  | String c r => String (lower_ascii c) (lower r)
  end.

Definition is_space (c : ascii) : bool :=
  let n := nat_of_ascii c in
  ((9 <=? n)%nat && (n <=? 13)%nat) || ((28 <=? n)%nat && (n <=? 32)%nat).

Fixpoint lstrip (s : string) : string :=
  match s with
  | EmptyString => EmptyString
  | String c r => if is_space c then lstrip r else s
  end.

Fixpoint rstrip (s : string) : string :=
  match s with
  | EmptyString => EmptyString
  | String c r =>
      match rstrip r with
      | EmptyString => if is_space c then EmptyString else String c EmptyString
      | r' => String c r'
      end
  end.

(** [s.strip()] *)
Definition strip (s : string) : string := rstrip (lstrip s).

(** [s.startswith(p)] *)
Definition startswith (s p : string) : bool := String.prefix p s.

(** [x in s] for strings *)
Fixpoint contains (x s : string) : bool :=
  String.prefix x s ||
  match s with
  | EmptyString => false
  | String _ r => contains x r
  end.

(** [os.path.basename] for POSIX paths: what follows the last slash. *)
Fixpoint basename_from (acc s : string) : string :=
  match s with
  | EmptyString => acc
  | String c r =>
      if Ascii.eqb c "/"%char then basename_from r r else basename_from acc r
  end.

Definition basename (p : string) : string := basename_from p p.

(** [sorted(l)] for lists of strings. *)
Fixpoint insert_sorted {A : Type} (leb : A -> A -> bool) (x : A) (l : list A) : list A :=
  match l with
  | [] => [x]
  | y :: r => if leb x y then x :: l else y :: insert_sorted leb x r
  end.

Definition sorted {A : Type} (leb : A -> A -> bool) (l : list A) : list A :=
  fold_right (insert_sorted leb) [] l.

(** [s.add(x)] on a set kept as a duplicate-free list. *)
Definition set_add (x : string) (s : list string) : list string :=
  if bool_decide (x ∈ s) then s else s ++ [x].

(** [s.split(",")] *)
Fixpoint split_comma (s : string) : list string :=
  match s with
  | EmptyString => [EmptyString]
  | String c r =>
      if Ascii.eqb c ","%char then EmptyString :: split_comma r
      else
        match split_comma r with
        | [] => [String c EmptyString]
        | h :: t => String c h :: t
        end
  end.

(** ** Widgets *)

(** A non-editable [QComboBox]: its items and the current index
    ([None] is Qt's -1). *)
Record QComboBox : Type := {
  items : list string;
  currentIndex : option nat
}.

Definition cb_new : QComboBox := {| items := []; currentIndex := None |}.

Definition cb_count (cb : QComboBox) : nat := length (items cb).

Definition cb_currentText (cb : QComboBox) : string :=
  match currentIndex cb with
  | Some i => nth i (items cb) ""
  | None => ""
  end.

Definition cb_clear (cb : QComboBox) : QComboBox := cb_new.

(** Adding to an empty box selects its first item. *)
Definition cb_addItems (l : list string) (cb : QComboBox) : QComboBox :=
  {| items := items cb ++ l;
     currentIndex :=
       match currentIndex cb, items cb ++ l with
       | None, _ :: _ => Some 0
       | cur, _ => cur
       end |}.

Fixpoint find_text (s : string) (l : list string) : option nat :=
  match l with
  | [] => None
  | x :: r => if String.eqb x s then Some 0 else option_map S (find_text s r)
  end.

Definition cb_setCurrentText (s : string) (cb : QComboBox) : QComboBox :=
  match find_text s (items cb) with
  | Some i => {| items := items cb; currentIndex := Some i |}
  | None => cb
  end.

Definition cb_setCurrentIndex (i : nat) (cb : QComboBox) : QComboBox :=
  {| items := items cb;
     currentIndex := if (i <? cb_count cb)%nat then Some i else None |}.

(** A row of the axis table: the item of column 0 and the combo box of
    column 1.  The remove button of column 2 and the header labels carry no
    data. *)
Record axis_row : Type := {
  axis_item : option string;
  axis_combo : QComboBox
}.

(** The message boxes a method can show. *)
Inductive dialog : Type :=
| Warning (title text : string)
| Information (title text : string).

(** ** The main window *)

Record EngineTestDataExplorer : Type := {
  file_list : list (string * bool);       (* item text, checked *)
  filtered_files : list string;
  loaded_dfs : gmap string DataFrame;
  axis_rows : list string;
  axis_map : list (string * string);
  axis_table : list axis_row;
  decimal_sep_combo : QComboBox;
  combo_datetime : QComboBox;
  combo_summary_type : QComboBox;
  start_time_edit : string;
  end_time_edit : string;
  custom_metrics : list string;
  custom_metrics_selected : list string
}.

Definition set_loaded_dfs (m : gmap string DataFrame) (w : EngineTestDataExplorer)
  : EngineTestDataExplorer :=
  {| file_list := file_list w; filtered_files := filtered_files w;
     loaded_dfs := m;
     axis_rows := axis_rows w; axis_map := axis_map w; axis_table := axis_table w;
     decimal_sep_combo := decimal_sep_combo w; combo_datetime := combo_datetime w;
     combo_summary_type := combo_summary_type w;
     start_time_edit := start_time_edit w; end_time_edit := end_time_edit w;
     custom_metrics := custom_metrics w;
     custom_metrics_selected := custom_metrics_selected w |}.

Definition set_axes (t : list axis_row) (r : list string) (m : list (string * string))
  (w : EngineTestDataExplorer) : EngineTestDataExplorer :=
  {| file_list := file_list w; filtered_files := filtered_files w;
     loaded_dfs := loaded_dfs w;
     axis_rows := r; axis_map := m; axis_table := t;
     decimal_sep_combo := decimal_sep_combo w; combo_datetime := combo_datetime w;
     combo_summary_type := combo_summary_type w;
     start_time_edit := start_time_edit w; end_time_edit := end_time_edit w;
     custom_metrics := custom_metrics w;
     custom_metrics_selected := custom_metrics_selected w |}.

Definition set_combos (dt : QComboBox) (t : list axis_row)
  (w : EngineTestDataExplorer) : EngineTestDataExplorer :=
  {| file_list := file_list w; filtered_files := filtered_files w;
     loaded_dfs := loaded_dfs w;
     axis_rows := axis_rows w; axis_map := axis_map w; axis_table := t;
     decimal_sep_combo := decimal_sep_combo w; combo_datetime := dt;
     combo_summary_type := combo_summary_type w;
     start_time_edit := start_time_edit w; end_time_edit := end_time_edit w;
     custom_metrics := custom_metrics w;
     custom_metrics_selected := custom_metrics_selected w |}.

Definition set_custom_metrics_selected (l : list string)
  (w : EngineTestDataExplorer) : EngineTestDataExplorer :=
  {| file_list := file_list w; filtered_files := filtered_files w;
     loaded_dfs := loaded_dfs w;
     axis_rows := axis_rows w; axis_map := axis_map w; axis_table := axis_table w;
     decimal_sep_combo := decimal_sep_combo w; combo_datetime := combo_datetime w;
     combo_summary_type := combo_summary_type w;
     start_time_edit := start_time_edit w; end_time_edit := end_time_edit w;
     custom_metrics := custom_metrics w;
     custom_metrics_selected := l |}.

(** ** Name resolution

    A name is looked up in the local scope of the running function, then
    among the names bound at module level (the builtins, searched last, hold
    none of the names looked up here).  Only what the model needs of an
    object is kept: a string, a main window, or anything else. *)

Inductive pyobj : Type :=
| OStr (s : string)
| OWindow (w : EngineTestDataExplorer)
| OOther.

Definition scope : Type := list (string * pyobj).

(** The names the module binds: its imports, functions and classes. *)
Definition module_globals : scope :=
  map (fun n => (n, OOther))
    ["os"; "sys"; "traceback"; "np"; "pd";
     "QApplication"; "QMainWindow"; "QWidget"; "QSplitter"; "QVBoxLayout";
     "QHBoxLayout"; "QLineEdit"; "QPushButton"; "QLabel"; "QListWidget";
     "QListWidgetItem"; "QGroupBox"; "QComboBox"; "QTableWidget";
     "QTableWidgetItem"; "QAbstractItemView"; "QRadioButton"; "QCheckBox";
     "QStatusBar"; "QAction"; "QToolBar"; "QFileDialog"; "QProgressBar";
     "QTabWidget"; "QSizePolicy"; "QMessageBox"; "QDialog"; "QMenu";
     "QTableView"; "QHeaderView"; "QDateTimeEdit";
     "Qt"; "QSettings"; "QSize"; "QTimer"; "QThread"; "pyqtSignal";
     "QDateTime"; "QEvent"; "QIcon"; "QCursor"; "FigureCanvas"; "Figure";
     "find_data_files"; "FolderScanThread"; "HeaderPreviewDialog";
     "is_time_col"; "read_file_headers"; "unique_numeric_columns";
     "extract_datetime_col"; "EngineTestDataExplorer"; "main"].

Fixpoint lookup_name (sc : scope) (name : string) : option pyobj :=
  match sc with
  | [] => None
  | (n, o) :: rest => if String.eqb n name then Some o else lookup_name rest name
  end.

Definition resolve (locals : scope) (name : string) : result pyobj :=
  match lookup_name (locals ++ module_globals) name with
  | Some o => Ok o
  | None => Raise (NameError name)
  end.

(** [obj.decimal_sep_combo.currentText()] *)
Definition decimal_sep_of (o : pyobj) : result string :=
  match o with
  | OWindow w => Ok (cb_currentText (decimal_sep_combo w))
  | _ => Raise (AttributeError "object has no attribute 'decimal_sep_combo'")
  end.

(** A path argument of [pd.read_csv]. *)
Definition as_path (o : pyobj) : result string :=
  match o with
  | OStr s => Ok s
  | _ => Raise (ValueError "Invalid file path or buffer object type")
  end.

(** ** The program *)

Section Program.
Context {R : Runtime}.

(** *** Data utilities (module level) *)

(** [is_time_col]: the lower-cased header contains one of the tokens. *)
Definition is_time_col (col : string) : bool :=
  existsb (fun x => contains x (lower col)) ["time"; "zaman"; "date"].

(** [pd.to_numeric] on one cell. *)
Definition to_numeric1 (c : cell) : option float :=
  match c with
  | CStr s => numeric_of_string s
  | CFloat x => Some x
  end.

(** [pd.to_numeric(series)]: raises on the first value that is no number. *)
Fixpoint to_numeric (xs : list cell) : result (list float) :=
  match xs with
  | [] => Ok []
  | c :: rest =>
      match to_numeric1 c with
      | Some x => let* r := to_numeric rest in Ok (x :: r)
      | None => Raise (ValueError "Unable to parse string")
      end
  end.

(** [pd.to_numeric(series, errors="coerce")]: what is no number becomes NaN. *)
Definition to_numeric_coerce (xs : list cell) : list float :=
  map (fun c => default NaN (to_numeric1 c)) xs.

(** [pd.to_datetime] on one cell; a missing value gives NaT. *)
Definition to_datetime1 (c : cell) : option (option Z) :=
  match c with
  | CStr s => datetime_of_string s
  | CFloat NaN => Some None
  | CFloat (Num q) => datetime_of_number q
  end.

(** [pd.to_datetime(series)] with the default [errors="raise"]. *)
Fixpoint to_datetime (xs : list cell) : result (list (option Z)) :=
  match xs with
  | [] => Ok []
  | c :: rest =>
      match to_datetime1 c with
      | Some t => let* r := to_datetime rest in Ok (t :: r)
      | None => Raise (ValueError "Unknown datetime string format")
      end
  end.

(** [t.iloc[0]] *)
Definition iloc0 (t : list (option Z)) : result (option Z) :=
  match t with
  | [] => Raise (IndexError "single positional indexer is out-of-bounds")
  | x :: _ => Ok x
  end.

(** [t - t0] on timestamps: NaT on either side gives NaT. *)
Definition sub_timestamp (t t0 : option Z) : option Z :=
  match t, t0 with
  | Some a, Some b => Some (a - b)%Z
  | _, _ => None
  end.

(** [.dt.total_seconds()] of a difference held in nanoseconds. *)
Definition total_seconds (d : option Z) : float :=
  match d with
  | Some ns => Num (Q2Qc (ns # 1000000000))
  | None => NaN
  end.

(** The two statements of [unique_numeric_columns] inside the loop over
    files: every column of the ten-row sample that converts is added. *)
Definition numeric_columns_of (df : DataFrame) (cols : list string) : list string :=
  fold_left
    (fun cols c =>
       match (let* col := df_getitem df c in to_numeric col) with
       | Ok _ => set_add c cols
       | Raise _ => cols
       end)
    (df_columns df) cols.

(** [unique_numeric_columns(files)].  The function is defined at module
    level and has the single parameter [files]. *)
Definition unique_numeric_columns (files : list string) : result (list string) :=
  let locals : scope := [("files", OOther); ("cols", OOther)] in
  let cols : list string := [] in
  let* self := resolve locals "self" in
  let* decimal_sep := decimal_sep_of self in
  let cols :=
    fold_left
      (fun cols f =>
         match read_csv f (Some 10%nat) decimal_sep with
         | Ok df => numeric_columns_of df cols
         | Raise _ => cols
         end)
      files cols in
  Ok (sorted String.leb cols).

(** [extract_datetime_col(df, time_col)] *)
Definition extract_datetime_col (df : DataFrame) (time_col : string) : result (list float) :=
  match (let* col := df_getitem df time_col in
         let* t := to_datetime col in
         let* t0 := iloc0 t in
         Ok (map (fun x => total_seconds (sub_timestamp x t0)) t)) with
  | Ok dt_sec => Ok dt_sec
  | Raise _ =>
      (* Try convert to numeric as fallback *)
      let* col := df_getitem df time_col in
      Ok (to_numeric_coerce col)
  end.

(** *** File selection and loading *)

(** [get_selected_files]: the paths of the checked items. *)
Fixpoint selected_from (i : nat) (its : list (string * bool)) (ff : list string)
  : result (list string) :=
  match its with
  | [] => Ok []
  | (_, checked) :: rest =>
      if checked then
        match ff !! i with
        | Some p => let* r := selected_from (S i) rest ff in Ok (p :: r)
        | None => Raise (IndexError "list index out of range")
        end
      else selected_from (S i) rest ff
  end.

Definition get_selected_files (w : EngineTestDataExplorer) : result (list string) :=
  selected_from 0 (file_list w) (filtered_files w).

Definition newline : string := String (ascii_of_nat 10) EmptyString.

(** The body of the loop of [load_selected_dataframes] for one file [f]. *)
Definition load_one (w : EngineTestDataExplorer) (decimal_sep : string)
  (acc : gmap string DataFrame * list string) (f : string)
  : gmap string DataFrame * list string :=
  let locals : scope :=
    [("self", OWindow w); ("files", OOther); ("loaded", OOther);
     ("errors", OOther); ("decimal_sep", OStr decimal_sep); ("f", OStr f)] in
  match (let* filepath := resolve locals "filepath" in
         let* path := as_path filepath in
         read_csv path None decimal_sep) with
  | Ok df => (<[f := df]> (fst acc), snd acc)
  | Raise e => (fst acc, snd acc ++ [(basename f ++ ": " ++ str_exn e)%string])
  end.

(** The loop over [files], from an empty mapping and an empty error list. *)
Definition load_files (w : EngineTestDataExplorer) (decimal_sep : string)
  (files : list string) : gmap string DataFrame * list string :=
  fold_left (load_one w decimal_sep) files (∅, []).

(** [load_selected_dataframes]: the window with its new cache, and the
    warning shown when some file failed. *)
Definition load_selected_dataframes (w : EngineTestDataExplorer)
  : result (EngineTestDataExplorer * list dialog) :=
  let* files := get_selected_files w in
  let decimal_sep := cb_currentText (decimal_sep_combo w) in
  let '(loaded, errors) := load_files w decimal_sep files in
  Ok (set_loaded_dfs loaded w,
      match errors with
      | [] => []
      | _ => [Warning "File Load Errors" (String.concat newline errors)]
      end).

(** *** The dynamic axis table *)

Definition axis_names : list string :=
  ["Primary Y"; "Secondary Y"; "Tertiary Y"; "Quaternary Y"].

(** What a method that ends early, shows a box or fails reports. *)
Inductive outcome : Type :=
| Returned
| Showed (d : dialog)
| Failed (e : exn).

(** The time-like headers of one five-row sample, added to [dt_cols]. *)
Definition time_columns_of (df : DataFrame) (dt_cols : list string) : list string :=
  fold_left (fun s c => if is_time_col c then set_add c s else s) (df_columns df) dt_cols.

(** The body of the last loop of [populate_column_choices] on the combo box
    of row [i]. *)
Definition refill_combo (all_columns : list string) (i : nat) (cb : QComboBox)
  : QComboBox :=
  let sel := if (cb_count cb =? 0)%nat then "" else cb_currentText cb in
  let cb := cb_addItems all_columns (cb_clear cb) in
  if negb (String.eqb sel "") && bool_decide (sel ∈ all_columns)
  then cb_setCurrentText sel cb
  else
    match all_columns with
    | [] => cb
    | _ => cb_setCurrentIndex (if (i <? length all_columns)%nat then i else 0%nat) cb
    end.

(** [populate_column_choices] *)
Definition populate_column_choices (w : EngineTestDataExplorer)
  : result EngineTestDataExplorer :=
  let* selected_files := get_selected_files w in
  let* all_columns :=
    match selected_files with
    | [] => Ok []
    | _ => unique_numeric_columns selected_files
    end in
  let decimal_sep := cb_currentText (decimal_sep_combo w) in
  let dt_cols :=
    fold_left
      (fun s f =>
         match read_csv f (Some 5%nat) decimal_sep with
         | Ok df => time_columns_of df s
         | Raise _ => s
         end)
      selected_files [] in
  let dt_cols :=
    match dt_cols, all_columns with
    | [], c :: _ => set_add c dt_cols
    | _, _ => dt_cols
    end in
  let dt := cb_addItems (sorted String.leb dt_cols) (cb_clear (combo_datetime w)) in
  Ok (set_combos dt
        (imap (fun i row =>
                 {| axis_item := axis_item row;
                    axis_combo := refill_combo all_columns i (axis_combo row) |})
              (axis_table w))
        w).

(** [init_dynamic_axis_table]: always at least one row (primary Y). *)
Definition init_dynamic_axis_table (w : EngineTestDataExplorer)
  : EngineTestDataExplorer * outcome :=
  let w1 :=
    set_axes [{| axis_item := Some "Primary Y"; axis_combo := cb_new |}]
             ["Primary Y"] [("", "")] w in
  match populate_column_choices w1 with
  | Ok w2 => (w2, Returned)
  | Raise e => (w1, Failed e)
  end.

(** [add_axis_row] *)
Definition add_axis_row (w : EngineTestDataExplorer)
  : EngineTestDataExplorer * outcome :=
  let n := length (axis_table w) in
  if (4 <=? n)%nat then
    (w, Showed (Warning "Axis Limit" "Maximum 4 Y axes supported."))
  else
    let w1 :=
      set_axes
        (axis_table w ++ [{| axis_item := Some (nth n axis_names "");
                             axis_combo := cb_new |}])
        (axis_rows w ++ [nth n axis_names ""])
        (axis_map w ++ [("", "")])
        w in
    match populate_column_choices w1 with
    | Ok w2 => (w2, Returned)
    | Raise e => (w1, Failed e)
    end.

(** The number of axis slots: [self.axis_table.rowCount()]. *)
Definition slot_count (w : EngineTestDataExplorer) : nat := length (axis_table w).

(** [get_axis_column_mapping] *)
Definition get_axis_column_mapping (w : EngineTestDataExplorer)
  : list (string * string) :=
  imap (fun i row =>
          let cb := axis_combo row in
          let col := if (cb_count cb =? 0)%nat then "" else cb_currentText cb in
          let axis_name :=
            match axis_item row with
            | Some t => t
            | None => ("Axis " ++ pretty (i + 1)%nat)%string
            end in
          (axis_name, col))
       (axis_table w).

(** [get_selected_time_column] *)
Definition get_selected_time_column (w : EngineTestDataExplorer) : string :=
  cb_currentText (combo_datetime w).

(** *** The time window *)

(** What the inner [parse_time] can return. *)
Inductive parsed_time : Type :=
| PTNone
| PTFloat (x : float)
| PTTimestamp (t : option Z).

Definition parse_time (s : string) : parsed_time :=
  let s := strip s in
  if String.eqb s "" then PTNone
  else
    match py_float s with
    | Some x => PTFloat x
    | None =>
        match datetime_of_string s with
        | Some t => PTTimestamp t
        | None => PTNone
        end
    end.

(** [s if isinstance(s, float) else None] *)
Definition float_or_none (p : parsed_time) : option float :=
  match p with
  | PTFloat x => Some x
  | _ => None
  end.

(** [get_time_window] on the texts of the two line edits. *)
Definition time_window_of (start_text end_text : string)
  : option float * option float :=
  let s := parse_time start_text in
  let e := parse_time end_text in
  (float_or_none s, float_or_none e).

Definition get_time_window (w : EngineTestDataExplorer)
  : option float * option float :=
  time_window_of (start_time_edit w) (end_time_edit w).

(** *** Summary metrics *)

(** [get_selected_summary_metrics].  [answer] is what the operator would
    type into the custom-metrics dialog and whether they accept it. *)
Definition get_selected_summary_metrics (w : EngineTestDataExplorer)
  (answer : string * bool) : result (list string * EngineTestDataExplorer) :=
  let v := lower (cb_currentText (combo_summary_type w)) in
  if String.eqb v "mean" then Ok (["mean"], w)
  else if String.eqb v "median" then Ok (["median"], w)
  else if String.eqb v "min/max" then Ok (["min"; "max"], w)
  else if String.eqb v "std dev" then Ok (["std"], w)
  else if startswith v "custom" then
    let locals : scope := [("self", OWindow w); ("v", OStr v)] in
    let* _ := resolve locals "QInputDialog" in
    let '(metrics, ok) := answer in
    let chosen :=
      List.filter (fun m => bool_decide (m ∈ custom_metrics w))
                  (map (fun m => lower (strip m)) (split_comma metrics)) in
    if ok then
      match chosen with
      | [] => Ok (["mean"], w)
      | _ => Ok (chosen, set_custom_metrics_selected chosen w)
      end
    else Ok (["mean"], w)
  else Ok (["mean"], w).

(** The values of a Series that are not missing. *)
Fixpoint dropna (vals : list float) : list Qc :=
  match vals with
  | [] => []
  | NaN :: rest => dropna rest
  | Num q :: rest => q :: dropna rest
  end.

Definition Qc_of_nat (n : nat) : Qc := Q2Qc (inject_Z (Z.of_nat n)).

Definition Qc_sum (xs : list Qc) : Qc := fold_right Qcplus (Q2Qc 0) xs.

Definition Qc_leb (a b : Qc) : bool := bool_decide (a <= b)%Qc.

(** Modelled from the spec: the reductions of a pandas Series, which are not
    part of the repository sources.  Each one skips missing values.
    Mean: the arithmetic mean. *)
Definition series_mean (vals : list float) : float :=
  match dropna vals with
  | [] => NaN
  | xs => Num (Qc_sum xs / Qc_of_nat (length xs))%Qc
  end.

(** Modelled from the spec: the median of a pandas Series, the 50th
    percentile with linear interpolation for even counts. *)
Definition series_median (vals : list float) : float :=
  let xs := sorted Qc_leb (dropna vals) in
  let n := length xs in
  match xs with
  | [] => NaN
  | _ =>
      if Nat.odd n then Num (nth (n / 2) xs (Q2Qc 0))
      else Num ((nth (n / 2 - 1) xs (Q2Qc 0) + nth (n / 2) xs (Q2Qc 0)) / Qc_of_nat 2)%Qc
  end.

(** Modelled from the spec: the minimum of a pandas Series. *)
Definition series_min (vals : list float) : float :=
  match dropna vals with
  | [] => NaN
  | x :: xs => Num (fold_left (fun m y => if Qc_leb y m then y else m) xs x)
  end.

(** Modelled from the spec: the maximum of a pandas Series. *)
Definition series_max (vals : list float) : float :=
  match dropna vals with
  | [] => NaN
  | x :: xs => Num (fold_left (fun m y => if Qc_leb m y then y else m) xs x)
  end.

(** Modelled from the spec: the sample standard deviation of a pandas
    Series (divide by N-1), missing when fewer than two values remain. *)
Definition series_std (vals : list float) : float :=
  let xs := dropna vals in
  let n := length xs in
  if (n <? 2)%nat then NaN
  else
    let m := (Qc_sum xs / Qc_of_nat n)%Qc in
    Num (fsqrt (Qc_sum (map (fun x => (x - m) * (x - m))%Qc xs) / Qc_of_nat (n - 1))%Qc).

(** [vals.empty] *)
Definition series_empty (vals : list float) : bool :=
  match vals with
  | [] => true
  | _ => false
  end.

(** A value of a summary row: the file name, or a number. *)
Inductive pyval : Type :=
| PStr (s : string)
| PFloat (x : float).

(** [pd.Series([True]*n)] and [mask &= other], element by element. *)
Definition and_series (mask other : list bool) : list bool :=
  zip_with andb mask other.

(** [series[mask]]: the values at the positions where the mask is true. *)
Fixpoint select_mask {A : Type} (xs : list A) (mask : list bool) : list A :=
  match xs, mask with
  | x :: xs', b :: mask' =>
      if b then x :: select_mask xs' mask' else select_mask xs' mask'
  | _, _ => []
  end.

(** The inclusion mask of the summary loop. *)
Definition build_mask (n : nat) (tsec : list float) (start end_ : option float)
  : list bool :=
  let mask := replicate n true in
  let mask :=
    match start with
    | Some s => and_series mask (map (fun t => fge t s) tsec)
    | None => mask
    end in
  match end_ with
  | Some e => and_series mask (map (fun t => fle t e) tsec)
  | None => mask
  end.

(** *** [preview_summary]: the summary shown in the modal table *)

(** The [if/elif] chain on one metric name: the values appended to the row. *)
Definition preview_metric (mt : string) (vals : list float) : list float :=
  if String.eqb mt "mean" then
    [if negb (series_empty vals) then series_mean vals else NaN]
  else if String.eqb mt "median" then
    [if negb (series_empty vals) then series_median vals else NaN]
  else if String.eqb mt "min" then
    [if negb (series_empty vals) then series_min vals else NaN]
  else if String.eqb mt "max" then
    [if negb (series_empty vals) then series_max vals else NaN]
  else if String.eqb mt "std" then
    [if negb (series_empty vals) then series_std vals else NaN]
  else [].

(** [vals] for one bound column. *)
Definition preview_vals (df : DataFrame) (mask : list bool) (col : string)
  : result (list float) :=
  if in_columns col df then
    let* c := df_getitem df col in
    Ok (to_numeric_coerce (select_mask c mask))
  else Ok [].

(** The loop over [axis_map] for one file: what is appended to the row. *)
Fixpoint preview_slots (df : DataFrame) (mask : list bool)
  (metric_types : list string) (axis_map : list (string * string))
  : result (list pyval) :=
  match axis_map with
  | [] => Ok []
  | (_, col) :: rest =>
      let* vals := preview_vals df mask col in
      let* r := preview_slots df mask metric_types rest in
      Ok (map PFloat (flat_map (fun mt => preview_metric mt vals) metric_types) ++ r)
  end.

(** The row of one file that passed the guard. *)
Definition preview_row (df : DataFrame) (f time_col : string)
  (axis_map : list (string * string)) (metric_types : list string)
  (start end_ : option float) : result (list pyval) :=
  let* tsec := extract_datetime_col df time_col in
  let mask := build_mask (df_len df) tsec start end_ in
  let* r := preview_slots df mask metric_types axis_map in
  Ok (PStr (basename f) :: r).

(** The loop over [files]: [summary_rows]. *)
Fixpoint preview_rows (loaded : gmap string DataFrame) (time_col : string)
  (axis_map : list (string * string)) (metric_types : list string)
  (start end_ : option float) (files : list string) : result (list (list pyval)) :=
  match files with
  | [] => Ok []
  | f :: rest =>
      match loaded !! f with
      | None => preview_rows loaded time_col axis_map metric_types start end_ rest
      | Some df =>
          if negb (in_columns time_col df)
          then preview_rows loaded time_col axis_map metric_types start end_ rest
          else
            let* row := preview_row df f time_col axis_map metric_types start end_ in
            let* rows := preview_rows loaded time_col axis_map metric_types start end_ rest in
            Ok (row :: rows)
      end
  end.

(** [columns]: "File", then one label per slot and metric. *)
Definition preview_columns (axis_map : list (string * string))
  (metric_types : list string) : list string :=
  "File" :: flat_map (fun ac => map (fun mt => (snd ac ++ "-" ++ mt)%string) metric_types)
                     axis_map.

(** The table a summary method hands to the dialog or to the writer. *)
Definition summary_table : Type := list (list pyval) * list string.

(** [preview_summary]: the window afterwards, the boxes shown, and the table
    of the preview dialog ([None] when the method returns early). *)
Definition preview_summary (w : EngineTestDataExplorer) (answer : string * bool)
  : EngineTestDataExplorer * list dialog * result (option summary_table) :=
  match load_selected_dataframes w with
  | Raise e => (w, [], Raise e)
  | Ok (w1, boxes) =>
      match get_selected_files w1 with
      | Raise e => (w1, boxes, Raise e)
      | Ok [] => (w1, boxes ++ [Information "Summary" "No files selected."], Ok None)
      | Ok files =>
          let time_col := get_selected_time_column w1 in
          let axis_map := get_axis_column_mapping w1 in
          match get_selected_summary_metrics w1 answer with
          | Raise e => (w1, boxes, Raise e)
          | Ok (metric_types, w2) =>
              let '(start, end_) := get_time_window w2 in
              match preview_rows (loaded_dfs w2) time_col axis_map metric_types
                                 start end_ files with
              | Raise e => (w2, boxes, Raise e)
              | Ok summary_rows =>
                  (w2, boxes,
                   Ok (Some (summary_rows, preview_columns axis_map metric_types)))
              end
          end
      end
  end.

(** *** [export_summary]: the summary written to a file *)

(** The [if/elif] chain on one metric name: the values appended to the row. *)
Definition export_metric (mt : string) (vals : list float) : list float :=
  if String.eqb mt "mean" then
    [if negb (series_empty vals) then series_mean vals else NaN]
  else if String.eqb mt "median" then
    [if negb (series_empty vals) then series_median vals else NaN]
  else if String.eqb mt "min" then
    [if negb (series_empty vals) then series_min vals else NaN]
  else if String.eqb mt "max" then
    [if negb (series_empty vals) then series_max vals else NaN]
  else if String.eqb mt "std" then
    [if negb (series_empty vals) then series_std vals else NaN]
  else [].

(** [vals] for one bound column. *)
Definition export_vals (df : DataFrame) (mask : list bool) (col : string)
  : result (list float) :=
  if in_columns col df then
    let* c := df_getitem df col in
    Ok (to_numeric_coerce (select_mask c mask))
  else Ok [].

(** The loop over [axis_map] for one file: what is appended to the row. *)
Fixpoint export_slots (df : DataFrame) (mask : list bool)
  (metric_types : list string) (axis_map : list (string * string))
  : result (list pyval) :=
  match axis_map with
  | [] => Ok []
  | (_, col) :: rest =>
      let* vals := export_vals df mask col in
      let* r := export_slots df mask metric_types rest in
      Ok (map PFloat (flat_map (fun mt => export_metric mt vals) metric_types) ++ r)
  end.

(** The row of one file that passed the guard. *)
Definition export_row (df : DataFrame) (f time_col : string)
  (axis_map : list (string * string)) (metric_types : list string)
  (start end_ : option float) : result (list pyval) :=
  let* tsec := extract_datetime_col df time_col in
  let mask := build_mask (df_len df) tsec start end_ in
  let* r := export_slots df mask metric_types axis_map in
  Ok (PStr (basename f) :: r).

(** The loop over [files]: [summary_rows]. *)
Fixpoint export_rows (loaded : gmap string DataFrame) (time_col : string)
  (axis_map : list (string * string)) (metric_types : list string)
  (start end_ : option float) (files : list string) : result (list (list pyval)) :=
  match files with
  | [] => Ok []
  | f :: rest =>
      match loaded !! f with
      | None => export_rows loaded time_col axis_map metric_types start end_ rest
      | Some df =>
          if negb (in_columns time_col df)
          then export_rows loaded time_col axis_map metric_types start end_ rest
          else
            let* row := export_row df f time_col axis_map metric_types start end_ in
            let* rows := export_rows loaded time_col axis_map metric_types start end_ rest in
            Ok (row :: rows)
      end
  end.

(** [columns]: "File", then one label per slot and metric. *)
Definition export_columns (axis_map : list (string * string))
  (metric_types : list string) : list string :=
  "File" :: flat_map (fun ac => map (fun mt => (snd ac ++ "-" ++ mt)%string) metric_types)
                     axis_map.

(** [export_summary]; [fname] is the answer of the save dialog.  The table
    is built by [pd.DataFrame(summary_rows, columns=columns)], which refuses
    rows that do not have one value per column. *)
Definition export_summary (w : EngineTestDataExplorer) (answer : string * bool)
  (fname : option string)
  : EngineTestDataExplorer * list dialog * result (option summary_table) :=
  match load_selected_dataframes w with
  | Raise e => (w, [], Raise e)
  | Ok (w1, boxes) =>
      match get_selected_files w1 with
      | Raise e => (w1, boxes, Raise e)
      | Ok [] => (w1, boxes ++ [Information "Export" "No files selected."], Ok None)
      | Ok files =>
          let time_col := get_selected_time_column w1 in
          let axis_map := get_axis_column_mapping w1 in
          match get_selected_summary_metrics w1 answer with
          | Raise e => (w1, boxes, Raise e)
          | Ok (metric_types, w2) =>
              let '(start, end_) := get_time_window w2 in
              match export_rows (loaded_dfs w2) time_col axis_map metric_types
                                start end_ files with
              | Raise e => (w2, boxes, Raise e)
              | Ok summary_rows =>
                  let columns := export_columns axis_map metric_types in
                  match fname with
                  | None | Some EmptyString => (w2, boxes, Ok None)
                  | Some _ =>
                      if forallb (fun r => (length r =? length columns)%nat) summary_rows
                      then (w2, boxes, Ok (Some (summary_rows, columns)))
                      else (w2, boxes,
                            Raise (ValueError "columns passed do not match the data"))
                  end
              end
          end
      end
  end.

End Program.

(** ** A runtime to run the program on

    A small instance of [Runtime]: decimal literals and [nan] for the
    numeric parsers, timestamps written [YYYY-MM-DD HH:MM:SS], and an
    in-memory folder of three parsed files. *)

Module Demo.

Definition digit (c : ascii) : option Z :=
  let n := nat_of_ascii c in
  if (48 <=? n)%nat && (n <=? 57)%nat then Some (Z.of_nat (n - 48)) else None.

(** The value of a non-empty run of digits, and how many there are. *)
Fixpoint digits (acc : Z) (k : nat) (s : string) : option (Z * nat) :=
  match s with
  | EmptyString => if (k =? 0)%nat then None else Some (acc, k)
  | String c r =>
      match digit c with
      | Some d => digits (acc * 10 + d) (S k) r
      | None => None
      end
  end.

(** The text before and after the first dot. *)
Fixpoint split_dot (s : string) : string * option string :=
  match s with
  | EmptyString => (EmptyString, None)
  | String c r =>
      if Ascii.eqb c "."%char then (EmptyString, Some r)
      else let '(a, b) := split_dot r in (String c a, b)
  end.

Definition unsigned_decimal (s : string) : option Qc :=
  match split_dot s with
  | (ip, None) =>
      match digits 0 0 ip with
      | Some (n, _) => Some (Q2Qc (inject_Z n))
      | None => None
      end
  | (ip, Some fp) =>
      match digits 0 0 ip, digits 0 0 fp with
      | Some (n, _), Some (m, k) =>
          Some (Q2Qc ((n * 10 ^ Z.of_nat k + m) # Pos.pow 10 (Pos.of_nat k)))
      | _, _ => None
      end
  end.

Definition decimal (s : string) : option float :=
  if String.eqb (lower s) "nan" then Some NaN
  else
    match s with
    | String "-"%char r => option_map (fun q => Num (- q)%Qc) (unsigned_decimal r)
    | String "+"%char r => option_map Num (unsigned_decimal r)
    | _ => option_map Num (unsigned_decimal s)
    end.

(** Days since 1970-01-01 of a civil date. *)
Definition days_from_civil (y m d : Z) : Z :=
  let y' := if (m <=? 2)%Z then (y - 1)%Z else y in
  let era := (y' / 400)%Z in
  let yoe := (y' - era * 400)%Z in
  let mp := ((m + 9) mod 12)%Z in
  let doy := ((153 * mp + 2) / 5 + d - 1)%Z in
  let doe := (yoe * 365 + yoe / 4 - yoe / 100 + doy)%Z in
  (era * 146097 + doe - 719468)%Z.

Definition field (s : string) (pos len : nat) : option Z :=
  option_map fst (digits 0 0 (String.substring pos len s)).

Definition timestamp (s : string) : option (option Z) :=
  if negb (String.length s =? 19)%nat then None
  else if negb (String.eqb (String.substring 4 1 s) "-"
                && String.eqb (String.substring 7 1 s) "-"
                && String.eqb (String.substring 10 1 s) " "
                && String.eqb (String.substring 13 1 s) ":"
                && String.eqb (String.substring 16 1 s) ":") then None
  else
    match field s 0 4, field s 5 2, field s 8 2,
          field s 11 2, field s 14 2, field s 17 2 with
    | Some y, Some m, Some d, Some hh, Some mi, Some ss =>
        if ((1 <=? m) && (m <=? 12) && (1 <=? d) && (d <=? 31)
            && (hh <? 24) && (mi <? 60) && (ss <? 60))%Z
        then Some (Some (((days_from_civil y m d * 86400
                           + hh * 3600 + mi * 60 + ss) * 1000000000)%Z))
        else None
    | _, _, _, _, _, _ => None
    end.

(** Square root to six decimals, exact on the squares of such numbers. *)
Definition sqrt6 (q : Qc) : Qc :=
  Q2Qc (Z.sqrt (Qnum q * 1000000000000 / Z.pos (Qden q)) # 1000000).

Definition num (z : Z) : cell := CFloat (Num (Q2Qc (inject_Z z))).

Definition file_A : DataFrame :=
  [("Time", [num 0; num 1; num 2]);
   ("RPM", [num 1000; num 1200; num 1100]);
   ("Temp", [num 80; num 85; num 90])].

Definition file_B : DataFrame :=
  [("Time", [CStr "2024-01-01 00:00:00"; CStr "garbage"; CStr "2024-01-01 00:00:10"]);
   ("RPM", [num 1000; num 1200; num 1100])].

Definition file_C : DataFrame :=
  [("Time", [CStr "2024-01-01 00:00:00"; CStr "2024-01-01 00:00:05";
             CStr "2024-01-01 00:00:10"]);
   ("RPM", [num 1000; CStr "n/a"; num 1100])].

Definition folder : list (string * DataFrame) :=
  [("/data/A.txt", file_A); ("/data/B.txt", file_B); ("/data/C.txt", file_C)].

Fixpoint open_file (fs : list (string * DataFrame)) (path : string) : result DataFrame :=
  match fs with
  | [] => Raise (FileNotFoundError "No such file or directory")
  | (p, df) :: rest => if String.eqb p path then Ok df else open_file rest path
  end.

Definition head_rows (nrows : option nat) (df : DataFrame) : DataFrame :=
  match nrows with
  | None => df
  | Some n => map (fun cx => (fst cx, take n (snd cx))) df
  end.

Definition runtime : Runtime :=
  {| read_csv := fun path nrows _ =>
       match open_file folder path with
       | Ok df => Ok (head_rows nrows df)
       | Raise e => Raise e
       end;
     datetime_of_string := timestamp;
     datetime_of_number := fun q => Some (Some (Qnum q / Z.pos (Qden q))%Z);
     numeric_of_string := decimal;
     py_float := decimal;
     fsqrt := sqrt6 |}.

(** The window as [__init__] leaves it before any folder is opened, up to
    the call of [init_dynamic_axis_table]. *)
Definition ellipsis : string :=
  String (ascii_of_nat 226) (String (ascii_of_nat 128) (String (ascii_of_nat 166) EmptyString)).

Definition fresh : EngineTestDataExplorer :=
  {| file_list := []; filtered_files := [];
     loaded_dfs := ∅;
     axis_rows := []; axis_map := [];
     axis_table := [{| axis_item := None; axis_combo := cb_new |}];
     decimal_sep_combo := {| items := ["."; ","]; currentIndex := Some 0%nat |};
     combo_datetime := cb_new;
     combo_summary_type :=
       {| items := ["Mean"; "Median"; "Min/Max"; "Std Dev"; ("Custom" ++ ellipsis)%string];
          currentIndex := Some 0%nat |};
     start_time_edit := ""; end_time_edit := "";
     custom_metrics := ["mean"; "median"; "min"; "max"; "std"];
     custom_metrics_selected := ["mean"] |}.

(** The window once it is constructed: one axis slot. *)
Definition window : EngineTestDataExplorer :=
  fst (init_dynamic_axis_table (R := runtime) fresh).

(** The same window after a folder with the three files was scanned and the
    listed files were checked. *)
Definition with_files (checked : list bool) (w : EngineTestDataExplorer)
  : EngineTestDataExplorer :=
  {| file_list := zip ["A.txt"; "B.txt"; "C.txt"] checked;
     filtered_files := map fst folder;
     loaded_dfs := loaded_dfs w;
     axis_rows := axis_rows w; axis_map := axis_map w; axis_table := axis_table w;
     decimal_sep_combo := decimal_sep_combo w; combo_datetime := combo_datetime w;
     combo_summary_type := combo_summary_type w;
     start_time_edit := start_time_edit w; end_time_edit := end_time_edit w;
     custom_metrics := custom_metrics w;
     custom_metrics_selected := custom_metrics_selected w |}.

(** The window with the two time-window edits filled in. *)
Definition with_edits (start_text end_text : string) (w : EngineTestDataExplorer)
  : EngineTestDataExplorer :=
  {| file_list := file_list w; filtered_files := filtered_files w;
     loaded_dfs := loaded_dfs w;
     axis_rows := axis_rows w; axis_map := axis_map w; axis_table := axis_table w;
     decimal_sep_combo := decimal_sep_combo w; combo_datetime := combo_datetime w;
     combo_summary_type := combo_summary_type w;
     start_time_edit := start_text; end_time_edit := end_text;
     custom_metrics := custom_metrics w;
     custom_metrics_selected := custom_metrics_selected w |}.

(** Small rationals as floats. *)
Definition flt (n : Z) (d : positive) : float := Num (Q2Qc (n # d)).

End Demo.

(** ** Further functions of the module and of the main window *)

(** [s.endswith(suffix)] *)
Fixpoint endswith (s suffix : string) : bool :=
  String.eqb s suffix ||
  match s with
  | EmptyString => false
  | String _ r => endswith r suffix
  end.

(** [os.path.join(a, b)] for POSIX paths. *)
Definition path_join (a b : string) : string :=
  if startswith b "/" then b
  else if String.eqb a "" || endswith a "/" then (a ++ b)%string
  else (a ++ "/" ++ b)%string.

(** A directory as [os.walk] meets it: its file names and its
    subdirectories, or a directory that cannot be listed, which the walk
    passes over. *)
#[warnings="-register-all"]
Inductive dir : Type :=
| Unreadable
| Dir (filenames : list string) (subdirs : list (string * dir)).

(** [os.walk(top)], top down: the path and the file names of every
    directory that can be listed. *)
Fixpoint walk (dirpath : string) (d : dir) : list (string * list string) :=
  match d with
  | Unreadable => []
  | Dir filenames subdirs =>
      (dirpath, filenames) ::
      (fix walk_subdirs (l : list (string * dir)) : list (string * list string) :=
         match l with
         | [] => []
         | (name, sub) :: rest => walk (path_join dirpath name) sub ++ walk_subdirs rest
         end) subdirs
  end.

(** The default [exts] of [find_data_files]. *)
Definition data_exts : list string := [".txt"; ".tsv"].

(** [fname.lower().endswith(exts)] for a tuple of suffixes. *)
Definition has_data_ext (exts : list string) (fname : string) : bool :=
  existsb (fun e => endswith (lower fname) e) exts.

(** [find_data_files(root_folder, exts)] on the tree found under the root. *)
Definition find_data_files (root_folder : string) (tree : dir) (exts : list string)
  : list string :=
  fold_left
    (fun result entry =>
       fold_left
         (fun result fname =>
            if has_data_ext exts fname
            then result ++ [path_join (fst entry) fname]
            else result)
         (snd entry) result)
    (walk root_folder tree) [].

(** [pop(idx)] on a list, for an index that is not negative: the list
    without the element, or [None] where Python raises [IndexError]. *)
Definition list_pop {A : Type} (idx : nat) (l : list A) : option (list A) :=
  if (idx <? length l)%nat then Some (delete idx l) else None.

Definition set_files (fl : list (string * bool)) (ff : list string)
  (w : EngineTestDataExplorer) : EngineTestDataExplorer :=
  {| file_list := fl; filtered_files := ff;
     loaded_dfs := loaded_dfs w;
     axis_rows := axis_rows w; axis_map := axis_map w; axis_table := axis_table w;
     decimal_sep_combo := decimal_sep_combo w; combo_datetime := combo_datetime w;
     combo_summary_type := combo_summary_type w;
     start_time_edit := start_time_edit w; end_time_edit := end_time_edit w;
     custom_metrics := custom_metrics w;
     custom_metrics_selected := custom_metrics_selected w |}.

Section Further.
Context {R : Runtime}.

(** [read_file_headers(files)] *)
Definition read_file_headers (files : list string) : gmap string (list string) :=
  fold_left
    (fun headers f =>
       match read_csv f (Some 1%nat) "." with
       | Ok df => <[f := df_columns df]> headers
       | Raise _ => <[f := []]> headers
       end)
    files ∅.

(** [filter_files]; [file_list_data] is the catalogue of the last scan and
    [filter_text] the text of the filter edit.  Every item is added
    unchecked. *)
Definition filter_files (file_list_data : list string) (filter_text : string)
  (w : EngineTestDataExplorer) : EngineTestDataExplorer :=
  let filter_txt := lower filter_text in
  let '(items, filtered) :=
    fold_left
      (fun acc filepath =>
         let fname := basename filepath in
         if contains filter_txt (lower fname)
         then (fst acc ++ [(fname, false)], snd acc ++ [filepath])
         else acc)
      file_list_data ([], []) in
  set_files items filtered w.

(** [folder_scan_complete(files)], for what it does to the lists and the
    combo boxes: the catalogue is replaced, filtered, and the column choices
    are rebuilt. *)
Definition folder_scan_complete (files : list string) (filter_text : string)
  (w : EngineTestDataExplorer) : EngineTestDataExplorer * outcome :=
  let w1 := filter_files files filter_text w in
  match populate_column_choices w1 with
  | Ok w2 => (w2, Returned)
  | Raise e => (w1, Failed e)
  end.

(** [on_file_checked(item)] *)
Definition on_file_checked (w : EngineTestDataExplorer)
  : result EngineTestDataExplorer :=
  populate_column_choices w.

(** [remove_axis_row(idx)] for the index of a remove button. *)
Definition remove_axis_row (idx : nat) (w : EngineTestDataExplorer)
  : EngineTestDataExplorer * outcome :=
  if (length (axis_table w) <=? 1)%nat then
    (w, Showed (Warning "Required" "At least one axis must be present."))
  else
    let table := delete idx (axis_table w) in
    match list_pop idx (axis_rows w) with
    | None =>
        (set_axes table (axis_rows w) (axis_map w) w,
         Failed (IndexError "pop index out of range"))
    | Some rows =>
        match list_pop idx (axis_map w) with
        | None =>
            (set_axes table rows (axis_map w) w,
             Failed (IndexError "pop index out of range"))
        | Some amap =>
            let w1 := set_axes table rows amap w in
            match populate_column_choices w1 with
            | Ok w2 => (w2, Returned)
            | Raise e => (w1, Failed e)
            end
        end
    end.

(** One click on the axis controls. *)
Inductive axis_op : Type :=
| AddAxis
| RemoveAxis (idx : nat).

Definition axis_step (w : EngineTestDataExplorer) (op : axis_op)
  : EngineTestDataExplorer :=
  match op with
  | AddAxis => fst (add_axis_row w)
  | RemoveAxis idx => fst (remove_axis_row idx w)
  end.

(** *** Plotting *)

(** One call of [ax.plot]: label, colour, and the two series. *)
Record curve : Type := {
  curve_label : string;
  curve_color : string;
  curve_x : list float;
  curve_y : list float
}.

Definition plot_colors : list string :=
  ["tab:blue"; "tab:orange"; "tab:green"; "tab:red"].

(** The loop over [files] for one bound column: the curves drawn on its
    axis. *)
Fixpoint plot_curves (loaded : gmap string DataFrame) (time_col col color : string)
  (files : list string) : result (list curve) :=
  match files with
  | [] => Ok []
  | f :: rest =>
      match loaded !! f with
      | None => plot_curves loaded time_col col color rest
      | Some df =>
          if negb (in_columns col df) || negb (in_columns time_col df)
          then plot_curves loaded time_col col color rest
          else
            let* tsec := extract_datetime_col df time_col in
            let* c := df_getitem df col in
            let y := to_numeric_coerce c in
            let* r := plot_curves loaded time_col col color rest in
            Ok ({| curve_label := (basename f ++ ":" ++ col)%string;
                   curve_color := color;
                   curve_x := tsec; curve_y := y |} :: r)
      end
  end.

(** The loop over [enumerate(axis_map)], the same in both modes: for every
    slot with a column, the y label and the curves of its axis. *)
Fixpoint plot_axes (loaded : gmap string DataFrame) (time_col : string)
  (files : list string) (idx : nat) (axis_map : list (string * string))
  : result (list (string * list curve)) :=
  match axis_map with
  | [] => Ok []
  | (_, col) :: rest =>
      if String.eqb col "" then plot_axes loaded time_col files (S idx) rest
      else
        let color := nth (idx mod length plot_colors) plot_colors "" in
        let* curves := plot_curves loaded time_col col color files in
        let* r := plot_axes loaded time_col files (S idx) rest in
        Ok ((col, curves) :: r)
  end.

(** [plot_data]; [overlay] is the state of the radio button.  The result is
    the window afterwards, the boxes shown, and the axes drawn ([None] when
    the method returns early). *)
Definition plot_data (w : EngineTestDataExplorer) (overlay : bool)
  : EngineTestDataExplorer * list dialog * result (option (list (string * list curve))) :=
  match load_selected_dataframes w with
  | Raise e => (w, [], Raise e)
  | Ok (w1, boxes) =>
      match get_selected_files w1 with
      | Raise e => (w1, boxes, Raise e)
      | Ok [] => (w1, boxes ++ [Information "Plot" "No files selected."], Ok None)
      | Ok files =>
          let time_col := get_selected_time_column w1 in
          let axis_map := get_axis_column_mapping w1 in
          if String.eqb time_col ""
             || negb (existsb (fun ac => negb (String.eqb (snd ac) "")) axis_map)
          then
            (w1,
             boxes ++ [Warning "Missing Columns"
                         "You must select a Date/Time column and at least one data column."],
             Ok None)
          else if overlay then
            (w1, boxes,
             let* axes := plot_axes (loaded_dfs w1) time_col files 0 axis_map in
             Ok (Some axes))
          else
            let n_axes :=
              length (List.filter (fun ac => negb (String.eqb (snd ac) "")) axis_map) in
            if (n_axes =? 0)%nat
            then (w1, boxes ++ [Warning "No Data" "No columns selected."], Ok None)
            else
              (w1, boxes,
               let* axes := plot_axes (loaded_dfs w1) time_col files 0 axis_map in
               Ok (Some axes))
      end
  end.

(** *** Export of the plotted data *)

(** A table of numbers built column by column. *)
Definition frame : Type := list (string * list float).

(** [outdf[col] = vals]: the column is replaced where it stands, or added
    last. *)
Fixpoint frame_set (col : string) (vals : list float) (fr : frame) : frame :=
  match fr with
  | [] => [(col, vals)]
  | (c, v) :: rest =>
      if String.eqb c col then (c, vals) :: rest
      else (c, v) :: frame_set col vals rest
  end.

Definition frame_len (fr : frame) : nat :=
  match fr with
  | [] => 0
  | (_, v) :: _ => length v
  end.

(** The loop over [axis_map] that fills [outdf] for one file. *)
Fixpoint export_columns_of (df : DataFrame) (axis_map : list (string * string))
  (outdf : frame) : result frame :=
  match axis_map with
  | [] => Ok outdf
  | (_, col) :: rest =>
      if negb (String.eqb col "") && in_columns col df then
        let* c := df_getitem df col in
        export_columns_of df rest (frame_set col (to_numeric_coerce c) outdf)
      else export_columns_of df rest outdf
  end.

(** The loop over [files]: the list [out]. *)
Fixpoint export_frames (loaded : gmap string DataFrame) (time_col : string)
  (axis_map : list (string * string)) (files : list string) : result (list frame) :=
  match files with
  | [] => Ok []
  | f :: rest =>
      match loaded !! f with
      | None => export_frames loaded time_col axis_map rest
      | Some df =>
          if negb (in_columns time_col df)
          then export_frames loaded time_col axis_map rest
          else
            let* tsec := extract_datetime_col df time_col in
            let* outdf := export_columns_of df axis_map [("Time [s]", tsec)] in
            let* r := export_frames loaded time_col axis_map rest in
            Ok (outdf :: r)
      end
  end.

(** The column labels of [pd.concat(out, axis=0)]: those of all frames, in
    the order they first appear. *)
Definition concat_columns (out : list frame) : list string :=
  fold_left (fun cols fr => fold_left (fun cols c => set_add c cols) (map fst fr) cols)
            out [].

(** A column of one frame as the concatenation sees it: missing values
    where the frame has no such column. *)
Fixpoint frame_get (col : string) (fr : frame) : option (list float) :=
  match fr with
  | [] => None
  | (c, v) :: rest => if String.eqb c col then Some v else frame_get col rest
  end.

Definition frame_column (col : string) (fr : frame) : list float :=
  default (replicate (frame_len fr) NaN) (frame_get col fr).

(** [pd.concat(out, axis=0, ignore_index=True)] *)
Definition concat_frames (out : list frame) : frame :=
  map (fun col => (col, flat_map (frame_column col) out)) (concat_columns out).

(** [export_plot_csv]; [fname] is the answer of the save dialog.  The result
    is the window afterwards, the boxes shown, and the file name with the
    merged table when one is written. *)
Definition export_plot_csv (w : EngineTestDataExplorer) (fname : option string)
  : EngineTestDataExplorer * list dialog * result (option (string * frame)) :=
  match load_selected_dataframes w with
  | Raise e => (w, [], Raise e)
  | Ok (w1, boxes) =>
      match get_selected_files w1 with
      | Raise e => (w1, boxes, Raise e)
      | Ok [] => (w1, boxes ++ [Information "Export" "No files selected."], Ok None)
      | Ok files =>
          let time_col := get_selected_time_column w1 in
          let axis_map := get_axis_column_mapping w1 in
          match export_frames (loaded_dfs w1) time_col axis_map files with
          | Raise e => (w1, boxes, Raise e)
          | Ok [] => (w1, boxes ++ [Warning "Export" "No data to export."], Ok None)
          | Ok out =>
              let merged := concat_frames out in
              match fname with
              | None | Some EmptyString => (w1, boxes, Ok None)
              | Some name => (w1, boxes, Ok (Some (name, merged)))
              end
          end
      end
  end.

End Further.

(** ** Further sample data *)

Module Sample.

(** A folder with two data files, a note, a subfolder and a folder that
    cannot be listed. *)
Definition tree : dir :=
  Dir ["A.txt"; "notes.md"; "B.TSV"]
      [("sub", Dir ["c.tsv"; "d.csv"] []); ("locked", Unreadable)].

(** The timestamps of [Demo.file_C], one minute later. *)
Definition file_D : DataFrame :=
  [("Clock", [CStr "2024-01-01 00:01:00"; CStr "2024-01-01 00:01:05";
              CStr "2024-01-01 00:01:10"])].

(** A time column whose first value is missing. *)
Definition file_E : DataFrame :=
  [("Time", [CFloat NaN; CStr "2024-01-01 00:00:05"; CStr "2024-01-01 00:00:10"])].

(** The window with another entry of the summary-type box selected. *)
Definition with_summary_type (idx : nat) (w : EngineTestDataExplorer)
  : EngineTestDataExplorer :=
  {| file_list := file_list w; filtered_files := filtered_files w;
     loaded_dfs := loaded_dfs w;
     axis_rows := axis_rows w; axis_map := axis_map w; axis_table := axis_table w;
     decimal_sep_combo := decimal_sep_combo w; combo_datetime := combo_datetime w;
     combo_summary_type := cb_setCurrentIndex idx (combo_summary_type w);
     start_time_edit := start_time_edit w; end_time_edit := end_time_edit w;
     custom_metrics := custom_metrics w;
     custom_metrics_selected := custom_metrics_selected w |}.

(** A window whose combo boxes offer columns, with "Time" and "RPM" chosen. *)
Definition with_columns (w : EngineTestDataExplorer) : EngineTestDataExplorer :=
  set_combos {| items := ["Time"]; currentIndex := Some 0%nat |}
    (map (fun row =>
            {| axis_item := axis_item row;
               axis_combo := {| items := ["RPM"; "Temp"]; currentIndex := Some 0%nat |} |})
         (axis_table w))
    w.

(** A cache with two parsed tables. *)
Definition cache : gmap string DataFrame :=
  <["/data/A.txt" := Demo.file_A]> {["/data/C.txt" := Demo.file_C]}.

End Sample.

(** ** Statements used by the properties below *)

#[global] Instance float_eq_dec : EqDecision float.
Proof. solve_decision. Defined.

#[global] Instance cell_eq_dec : EqDecision cell.
Proof. solve_decision. Defined.

#[global] Instance exn_eq_dec : EqDecision exn.
Proof. solve_decision. Defined.

#[global] Instance result_eq_dec {A : Type} `{EqDecision A} : EqDecision (result A).
Proof. solve_decision. Defined.

#[global] Instance pyval_eq_dec : EqDecision pyval.
Proof. solve_decision. Defined.

#[global] Instance dialog_eq_dec : EqDecision dialog.
Proof. solve_decision. Defined.

#[global] Instance outcome_eq_dec : EqDecision outcome.
Proof. solve_decision. Defined.

(** A closed equation between values with decidable equality, by running
    both sides. *)
Ltac by_running := apply (bool_decide_unpack _); vm_compute; exact I.

(** [n] successive calls of [add_axis_row] and what each reported. *)
Fixpoint add_axis_rows {R : Runtime} (n : nat) (w : EngineTestDataExplorer)
  : EngineTestDataExplorer * list outcome :=
  match n with
  | O => (w, [])
  | S k =>
      let '(w1, o) := add_axis_row w in
      let '(w2, os) := add_axis_rows k w1 in
      (w2, o :: os)
  end.

(** The call was turned down with the capacity warning. *)
Definition rejected (o : outcome) : Prop :=
  o = Showed (Warning "Axis Limit" "Maximum 4 Y axes supported.").

(** The first timestamp of a column that parses, as the specification words
    the reference of the elapsed time. *)
Fixpoint first_parsed {R : Runtime} (xs : list cell) : option Z :=
  match xs with
  | [] => None
  | c :: rest =>
      match to_datetime1 c with
      | Some (Some t) => Some t
      | _ => first_parsed rest
      end
  end.

(** Row-by-row tolerance of the time normalisation, as the specification
    words it: a row that does not parse is missing in the result, and every
    row that parses is the distance in seconds to the first parsed one. *)
Definition per_row_tolerant {R : Runtime} (df : DataFrame) (time_col : string) : Prop :=
  forall xs : list cell,
    df_getitem df time_col = Ok xs ->
    exists ys : list float,
      extract_datetime_col df time_col = Ok ys /\
      forall (i : nat) (c : cell),
        xs !! i = Some c ->
        match to_datetime1 c with
        | None | Some None => ys !! i = Some NaN
        | Some (Some t) =>
            forall t0, first_parsed xs = Some t0 ->
                       ys !! i = Some (total_seconds (Some (t - t0)%Z))
        end.

(** The capacity scenario as the specification words it: from one slot four
    calls succeed, and a fifth is rejected, leaves four slots and changes
    nothing. *)
Definition four_adds_then_reject {R : Runtime} (w : EngineTestDataExplorer) : Prop :=
  slot_count w = 1 ->
  Forall (fun o => ~ rejected o) (snd (add_axis_rows 4 w)) /\
  rejected (snd (add_axis_row (fst (add_axis_rows 4 w)))) /\
  slot_count (fst (add_axis_row (fst (add_axis_rows 4 w)))) = 4.

(** A row is inside the window, as the specification words it; a missing
    elapsed value satisfies no comparison. *)
Definition inside_window (t : float) (start end_ : option float) : Prop :=
  (start = None \/ exists a s : Qc, t = Num a /\ start = Some (Num s) /\ (s <= a)%Qc) /\
  (end_ = None \/ exists a e : Qc, t = Num a /\ end_ = Some (Num e) /\ (a <= e)%Qc).

(** The two tests of the loop, on one elapsed value. *)
Definition mask_bit (t : float) (start end_ : option float) : bool :=
  match start with Some s => fge t s | None => true end
  && match end_ with Some e => fle t e | None => true end.

(** What the axis controls keep: between one and four slots, and the two
    lists [axis_rows] and [axis_map] as long as the table. *)
Definition axis_invariant (w : EngineTestDataExplorer) : Prop :=
  1 <= slot_count w <= 4 /\
  length (axis_rows w) = slot_count w /\
  length (axis_map w) = slot_count w.

(** The first window is at least as wide as the second on the side of the
    start, and on the side of the end. *)
Definition start_not_later (s s' : option float) : Prop :=
  s = None \/ exists a b : Qc, s = Some (Num a) /\ s' = Some (Num b) /\ (a <= b)%Qc.

Definition end_not_earlier (e e' : option float) : Prop :=
  e = None \/ exists a b : Qc, e = Some (Num a) /\ e' = Some (Num b) /\ (b <= a)%Qc.

(** The file passes the guard of the summary loop: it is cached and its
    table has the time column. *)
Definition processed (loaded : gmap string DataFrame) (time_col f : string) : bool :=
  match loaded !! f with
  | Some df => in_columns time_col df
  | None => false
  end.

(** The tables of the selected files that pass the guard, in the order of
    the selection. *)
Definition processed_tables (loaded : gmap string DataFrame) (time_col : string)
  (files : list string) : list DataFrame :=
  omap (fun f =>
          match loaded !! f with
          | Some df => if in_columns time_col df then Some df else None
          | None => None
          end) files.

(** The five metric names. *)
Definition known_metric (mt : string) : Prop :=
  mt ∈ ["mean"; "median"; "min"; "max"; "std"].

(** * Properties *)

Section Properties.
Context {R : Runtime}.

(** ** Lists *)

Lemma lookup_map {A B : Type} (f : A -> B) (l : list A) (i : nat) :
  map f l !! i = option_map f (l !! i).
Proof.
  revert i. induction l as [|x l IH]; intros [|i]; simpl; auto.
Qed.

(** ** Loading *)

Lemma resolve_filepath (w : EngineTestDataExplorer) (decimal_sep f : string) :
  resolve [("self", OWindow w); ("files", OOther); ("loaded", OOther);
           ("errors", OOther); ("decimal_sep", OStr decimal_sep); ("f", OStr f)]
          "filepath" = Raise (NameError "filepath").
Proof. reflexivity. Qed.

Lemma load_one_fails w decimal_sep acc f :
  load_one w decimal_sep acc f
  = (fst acc, snd acc ++ [(basename f ++ ": name 'filepath' is not defined")%string]).
Proof. unfold load_one. rewrite resolve_filepath. reflexivity. Qed.

Lemma fold_load_one w decimal_sep files acc :
  fold_left (load_one w decimal_sep) files acc
  = (fst acc,
     snd acc ++ map (fun f => (basename f ++ ": name 'filepath' is not defined")%string) files).
Proof.
  revert acc. induction files as [|f files IH]; intros acc; simpl.
  - rewrite app_nil_r. by destruct acc.
  - rewrite IH, load_one_fails. simpl. by rewrite <- app_assoc.
Qed.

(** Whatever the files hold, the loop leaves the mapping empty and records
    one entry per file: no file aborts the loop, and none is loaded. *)
Lemma load_files_all_fail w decimal_sep files :
  load_files w decimal_sep files
  = (∅, map (fun f => (basename f ++ ": name 'filepath' is not defined")%string) files).
Proof. unfold load_files. by rewrite fold_load_one. Qed.

Lemma load_selected_dataframes_cache w w' boxes :
  load_selected_dataframes w = Ok (w', boxes) -> loaded_dfs w' = ∅.
Proof.
  unfold load_selected_dataframes.
  destruct (get_selected_files w) as [files|]; [|done].
  unfold rbind. rewrite load_files_all_fail.
  intros Heq. by injection Heq as <- _.
Qed.

Lemma unique_numeric_columns_raises files :
  unique_numeric_columns files = Raise (NameError "self").
Proof. reflexivity. Qed.

(** ** The axis table *)

Lemma populate_slot_count w w' :
  populate_column_choices w = Ok w' -> slot_count w' = slot_count w.
Proof.
  unfold populate_column_choices, rbind.
  destruct (get_selected_files w) as [files|]; [|done].
  destruct (match files with [] => Ok [] | _ => _ end) as [cols|]; [|done].
  intros Heq. injection Heq as <-. unfold slot_count. simpl. by rewrite length_imap.
Qed.

Lemma populate_selected_files w w' :
  populate_column_choices w = Ok w' -> get_selected_files w' = get_selected_files w.
Proof.
  unfold populate_column_choices, rbind.
  destruct (get_selected_files w) as [files|] eqn:Hs; [|done].
  destruct (match files with [] => Ok [] | _ => _ end) as [cols|]; [|done].
  intros Heq. injection Heq as <-. rewrite <- Hs. reflexivity.
Qed.

Lemma populate_no_selection w :
  get_selected_files w = Ok [] -> exists w', populate_column_choices w = Ok w'.
Proof.
  intros H. unfold populate_column_choices. rewrite H. simpl. eauto.
Qed.

(** Below the capacity a call appends one slot and shows no warning. *)
Lemma add_axis_row_adds w :
  slot_count w < 4 ->
  slot_count (fst (add_axis_row w)) = S (slot_count w) /\
  ~ rejected (snd (add_axis_row w)) /\
  get_selected_files (fst (add_axis_row w)) = get_selected_files w /\
  (get_selected_files w = Ok [] -> snd (add_axis_row w) = Returned).
Proof.
  intros Hlt. unfold add_axis_row. fold (slot_count w).
  destruct (4 <=? slot_count w)%nat eqn:Hfull.
  { apply Nat.leb_le in Hfull. lia. }
  match goal with |- context [populate_column_choices ?x] => set (w1 := x) end.
  assert (Hc : slot_count w1 = S (slot_count w)).
  { unfold slot_count, w1. simpl. rewrite length_app. simpl. lia. }
  assert (Hf : get_selected_files w1 = get_selected_files w) by reflexivity.
  destruct (populate_column_choices w1) as [w2|e] eqn:Hp; simpl.
  - split; [|split; [|split]].
    + by rewrite (populate_slot_count _ _ Hp).
    + discriminate.
    + by rewrite (populate_selected_files _ _ Hp).
    + done.
  - split; [done|]. split; [discriminate|]. split; [done|].
    intros Hsel. rewrite <- Hf in Hsel.
    destruct (populate_no_selection _ Hsel) as [w' Hw']. congruence.
Qed.

(** At the capacity a call shows the warning and returns the window as it
    was. *)
Lemma add_axis_row_full w :
  4 <= slot_count w ->
  add_axis_row w = (w, Showed (Warning "Axis Limit" "Maximum 4 Y axes supported.")).
Proof.
  intros Hle. unfold add_axis_row. fold (slot_count w).
  apply Nat.leb_le in Hle. by rewrite Hle.
Qed.

(** C2, as amended.  From a window with exactly one axis slot, three
    successive calls of [add_axis_row] each add a slot and none of them is
    turned down (each returns normally when no file is checked); the fourth
    call is rejected with the capacity warning, the slot count stays 4 and
    the window is unchanged. *)
Theorem add_axis_row_capacity (w : EngineTestDataExplorer) :
  slot_count w = 1 ->
  let r1 := add_axis_row w in
  let r2 := add_axis_row (fst r1) in
  let r3 := add_axis_row (fst r2) in
  slot_count (fst r1) = 2 /\ slot_count (fst r2) = 3 /\ slot_count (fst r3) = 4 /\
  ~ rejected (snd r1) /\ ~ rejected (snd r2) /\ ~ rejected (snd r3) /\
  (get_selected_files w = Ok [] ->
   snd r1 = Returned /\ snd r2 = Returned /\ snd r3 = Returned) /\
  add_axis_row (fst r3) = (fst r3, Showed (Warning "Axis Limit" "Maximum 4 Y axes supported.")) /\
  rejected (snd (add_axis_row (fst r3))) /\
  slot_count (fst (add_axis_row (fst r3))) = 4.
Proof.
  intros H1 r1 r2 r3.
  destruct (add_axis_row_adds w) as (C1 & N1 & F1 & S1); [lia|].
  fold r1 in C1, N1, F1, S1. rewrite H1 in C1.
  destruct (add_axis_row_adds (fst r1)) as (C2 & N2 & F2 & S2); [lia|].
  fold r2 in C2, N2, F2, S2. rewrite C1 in C2.
  destruct (add_axis_row_adds (fst r2)) as (C3 & N3 & F3 & S3); [lia|].
  fold r3 in C3, N3, F3, S3. rewrite C2 in C3.
  assert (Hfull : add_axis_row (fst r3)
                  = (fst r3, Showed (Warning "Axis Limit" "Maximum 4 Y axes supported."))).
  { apply add_axis_row_full. lia. }
  repeat split; try done.
  - by apply S1.
  - apply S2. by rewrite F1.
  - apply S3. by rewrite F2, F1.
  - by rewrite Hfull.
  - by rewrite Hfull.
Qed.

(** ** Time normalisation *)

Lemma to_datetime_ok xs ts :
  to_datetime xs = Ok ts -> Forall2 (fun c t => to_datetime1 c = Some t) xs ts.
Proof.
  revert ts. induction xs as [|c xs IH]; intros ts; simpl.
  - intros Heq. injection Heq as <-. constructor.
  - destruct (to_datetime1 c) as [t|] eqn:Hc; [|done].
    destruct (to_datetime xs) as [r|]; simpl; [|done].
    intros Heq. injection Heq as <-. constructor; auto.
Qed.

Lemma to_datetime_total xs :
  Forall (fun c => to_datetime1 c <> None) xs -> exists ts, to_datetime xs = Ok ts.
Proof.
  induction 1 as [|c xs Hc _ [ts IH]]; simpl; [by eexists|].
  destruct (to_datetime1 c); [|done]. rewrite IH. simpl. by eexists.
Qed.

Lemma to_datetime_fail xs c :
  c ∈ xs -> to_datetime1 c = None -> exists e, to_datetime xs = Raise e.
Proof.
  intros Hin Hc. induction Hin as [c xs|c d xs _ IH]; simpl.
  - rewrite Hc. by eexists.
  - destruct (to_datetime1 d); [|by eexists].
    destruct (IH Hc) as [e ->]. simpl. by eexists.
Qed.

(** With the column at hand the function is a case analysis on the result
    of [pd.to_datetime]. *)
Lemma extract_datetime_col_cases df time_col xs :
  df_getitem df time_col = Ok xs ->
  extract_datetime_col df time_col =
    match to_datetime xs with
    | Ok (t0 :: ts) => Ok (map (fun x => total_seconds (sub_timestamp x t0)) (t0 :: ts))
    | _ => Ok (to_numeric_coerce xs)
    end.
Proof.
  intros Hcol. unfold extract_datetime_col. rewrite Hcol. simpl.
  destruct (to_datetime xs) as [[|t0 ts]|]; reflexivity.
Qed.

Lemma extract_datetime_col_length df time_col xs :
  df_getitem df time_col = Ok xs ->
  exists ys, extract_datetime_col df time_col = Ok ys /\ length ys = length xs.
Proof.
  intros Hcol. rewrite (extract_datetime_col_cases _ _ _ Hcol).
  destruct (to_datetime xs) as [[|t0 ts]|] eqn:Hdt; eexists; split; try reflexivity.
  - unfold to_numeric_coerce. by rewrite length_map.
  - rewrite length_map. symmetry. exact (Forall2_length _ _ _ (to_datetime_ok _ _ Hdt)).
  - unfold to_numeric_coerce. by rewrite length_map.
Qed.

Lemma df_getitem_length df col xs n :
  Forall (fun cx => length (snd cx) = n) df ->
  df_getitem df col = Ok xs -> length xs = n.
Proof.
  induction 1 as [|[c ys] df Hc _ IH]; simpl; [done|].
  destruct (String.eqb c col); [|done].
  intros Heq. by injection Heq as <-.
Qed.

Lemma in_columns_getitem df col :
  in_columns col df = true -> exists xs, df_getitem df col = Ok xs.
Proof.
  unfold in_columns, df_columns. intros H. apply bool_decide_eq_true in H.
  induction df as [|[c ys] df IH]; simpl in *.
  - by apply elem_of_nil in H.
  - destruct (String.eqb c col) eqn:Hc; [by eexists|].
    apply elem_of_cons in H as [->|H]; [|by apply IH].
    by rewrite String.eqb_refl in Hc.
Qed.

(** C5.  For a table of N rows whose time column parses as timestamps,
    [extract_datetime_col] returns N elapsed-seconds values, and the value
    at the first row is 0 when the first row holds a timestamp. *)
Theorem normalize_length_and_origin (df : DataFrame) (time_col : string)
    (xs : list cell) (ts : list (option Z)) :
  df_wf df ->
  df_getitem df time_col = Ok xs ->
  to_datetime xs = Ok ts ->
  exists ys : list float,
    extract_datetime_col df time_col = Ok ys /\
    length ys = df_len df /\
    (forall (c : cell) (t0 : Z),
        xs !! 0 = Some c -> to_datetime1 c = Some (Some t0) ->
        ys !! 0 = Some (Num (Q2Qc 0))).
Proof.
  intros Hwf Hcol Hdt.
  destruct (extract_datetime_col_length _ _ _ Hcol) as (ys & Hys & Hlen).
  exists ys. split; [done|]. split.
  { rewrite Hlen. by apply (df_getitem_length df time_col). }
  intros c t0 Hc Ht0.
  rewrite (extract_datetime_col_cases _ _ _ Hcol), Hdt in Hys.
  destruct xs as [|c' xs]; [done|]. injection Hc as ->.
  simpl in Hdt. rewrite Ht0 in Hdt.
  destruct (to_datetime xs) as [r|]; simpl in Hdt; [|done].
  injection Hdt as <-. injection Hys as <-.
  simpl. by rewrite Z.sub_diag, (proj2 (Q2Qc_eq_iff (0 # 1000000000) 0)).
Qed.

(** C3, as amended.  The function always returns one value per row.  When
    some row of the column fails to parse as a timestamp the whole column
    falls back to numeric coercion: every row then yields its number, or a
    missing value when it is not a number.  Rows yield elapsed seconds,
    relative to the timestamp of the first row, only when every row of the
    column parses. *)
Theorem extract_datetime_col_whole_column (df : DataFrame) (time_col : string)
    (xs : list cell) :
  df_getitem df time_col = Ok xs ->
  exists ys : list float,
    extract_datetime_col df time_col = Ok ys /\
    length ys = length xs /\
    ((exists c, c ∈ xs /\ to_datetime1 c = None) ->
     forall (i : nat) (c : cell),
       xs !! i = Some c -> ys !! i = Some (default NaN (to_numeric1 c))) /\
    (Forall (fun c => to_datetime1 c <> None) xs ->
     forall (c0 : cell) (t0 : option Z),
       xs !! 0 = Some c0 -> to_datetime1 c0 = Some t0 ->
       forall (i : nat) (c : cell) (t : option Z),
         xs !! i = Some c -> to_datetime1 c = Some t ->
         ys !! i = Some (total_seconds (sub_timestamp t t0))).
Proof.
  intros Hcol.
  destruct (extract_datetime_col_length _ _ _ Hcol) as (ys & Hys & Hlen).
  exists ys. split; [done|]. split; [done|].
  rewrite (extract_datetime_col_cases _ _ _ Hcol) in Hys. split.
  - intros (c & Hin & Hc) i d Hd.
    destruct (to_datetime_fail _ _ Hin Hc) as [e He]. rewrite He in Hys.
    injection Hys as <-. unfold to_numeric_coerce.
    by rewrite lookup_map, Hd.
  - intros Hall c0 t0 Hc0 Ht0 i c t Hc Ht.
    destruct (to_datetime_total _ Hall) as [ts Hts]. rewrite Hts in Hys.
    pose proof (to_datetime_ok _ _ Hts) as HF.
    destruct (Forall2_lookup_l _ _ _ _ _ HF Hc0) as (t0' & Hts0 & Ht0').
    destruct (Forall2_lookup_l _ _ _ _ _ HF Hc) as (t' & Htsi & Ht').
    assert (t0' = t0) as -> by congruence.
    assert (t' = t) as -> by congruence.
    destruct ts as [|h ts]; [done|]. injection Hts0 as ->.
    injection Hys as <-.
    destruct i as [|i]; simpl in *.
    + by injection Htsi as ->.
    + by rewrite lookup_map, Htsi.
Qed.

(** ** The time window *)

Lemma float_or_none_parse_time (s : string) :
  py_float "" = None -> float_or_none (parse_time s) = py_float (strip s).
Proof.
  intros Hempty. unfold parse_time.
  destruct (String.eqb (strip s) "") eqn:Hs.
  - apply String.eqb_eq in Hs. by rewrite Hs, Hempty.
  - destruct (py_float (strip s)); [done|].
    by destruct (datetime_of_string (strip s)).
Qed.

(** C6.  Each bound of the window is what [float] makes of the stripped
    text: it is honoured exactly when the text parses as a floating-point
    number, and it is absent otherwise, also when the text parses as a
    calendar timestamp. *)
Theorem time_window_numeric_only (w : EngineTestDataExplorer) :
  py_float "" = None ->
  fst (get_time_window w) = py_float (strip (start_time_edit w)) /\
  snd (get_time_window w) = py_float (strip (end_time_edit w)) /\
  (forall x : float,
      fst (get_time_window w) = Some x <-> py_float (strip (start_time_edit w)) = Some x) /\
  (forall x : float,
      snd (get_time_window w) = Some x <-> py_float (strip (end_time_edit w)) = Some x) /\
  (forall t : option Z,
      py_float (strip (start_time_edit w)) = None ->
      datetime_of_string (strip (start_time_edit w)) = Some t ->
      fst (get_time_window w) = None) /\
  (forall t : option Z,
      py_float (strip (end_time_edit w)) = None ->
      datetime_of_string (strip (end_time_edit w)) = Some t ->
      snd (get_time_window w) = None).
Proof.
  intros Hempty. unfold get_time_window, time_window_of. simpl.
  rewrite !(float_or_none_parse_time _ Hempty).
  repeat split; auto.
Qed.

(** ** Metrics of a slice *)

Lemma dropna_nonempty vals x : dropna vals = [x] -> series_empty vals = false.
Proof. by destruct vals. Qed.

Lemma Qc_div_one (x : Qc) : (x / Qc_of_nat 1)%Qc = x.
Proof.
  unfold Qcdiv. replace (/ Qc_of_nat 1)%Qc with 1%Qc.
  - apply Qcmult_1_r.
  - apply Qc_is_canon. reflexivity.
Qed.

(** C7.  On a slice with exactly one value that is not missing, [std]
    yields the missing value, and [mean], [median], [min] and [max] each
    yield that value. *)
Theorem single_value_metrics (vals : list float) (x : Qc) :
  dropna vals = [x] ->
  preview_metric "std" vals = [NaN] /\
  preview_metric "mean" vals = [Num x] /\
  preview_metric "median" vals = [Num x] /\
  preview_metric "min" vals = [Num x] /\
  preview_metric "max" vals = [Num x].
Proof.
  intros H. pose proof (dropna_nonempty _ _ H) as He.
  unfold preview_metric. simpl. rewrite He. simpl.
  unfold series_std, series_mean, series_median, series_min, series_max.
  rewrite H. simpl. repeat split.
  unfold Qc_sum. simpl. by rewrite Qcplus_0_r, Qc_div_one.
Qed.

(** ** The inclusion mask *)

Lemma fge_spec (t s : float) :
  fge t s = true <-> exists a b : Qc, t = Num a /\ s = Num b /\ (b <= a)%Qc.
Proof.
  destruct t as [|a], s as [|b]; simpl; split;
    try discriminate; try (by intros (? & ? & ? & ? & ?)).
  - intros H. apply bool_decide_eq_true in H. by exists a, b.
  - intros (a' & b' & [= ->] & [= ->] & H). by apply bool_decide_eq_true.
Qed.

Lemma fle_spec (t e : float) :
  fle t e = true <-> exists a b : Qc, t = Num a /\ e = Num b /\ (a <= b)%Qc.
Proof.
  destruct t as [|a], e as [|b]; simpl; split;
    try discriminate; try (by intros (? & ? & ? & ? & ?)).
  - intros H. apply bool_decide_eq_true in H. by exists a, b.
  - intros (a' & b' & [= ->] & [= ->] & H). by apply bool_decide_eq_true.
Qed.

Lemma and_series_lookup (mask other : list bool) (i : nat) (a b : bool) :
  mask !! i = Some a -> other !! i = Some b ->
  and_series mask other !! i = Some (a && b).
Proof.
  intros Ha Hb. unfold and_series. by rewrite lookup_zip_with, Ha, Hb.
Qed.

Lemma build_mask_lookup n tsec start end_ i t :
  i < n -> tsec !! i = Some t ->
  build_mask n tsec start end_ !! i = Some (mask_bit t start end_).
Proof.
  intros Hi Ht. unfold build_mask, mask_bit.
  assert (H0 : replicate n true !! i = Some true) by by apply lookup_replicate_2.
  assert (H1 : match start with
               | Some s => and_series (replicate n true) (map (fun t => fge t s) tsec)
               | None => replicate n true
               end !! i
               = Some (match start with Some s => fge t s | None => true end)).
  { destruct start as [s|]; [|done].
    rewrite (and_series_lookup _ _ i true (fge t s)); [done|done|].
    by rewrite lookup_map, Ht. }
  destruct end_ as [e|].
  - rewrite (and_series_lookup _ _ i _ (fle t e) H1); [done|].
    by rewrite lookup_map, Ht.
  - by rewrite H1, andb_true_r.
Qed.

Lemma build_mask_length n tsec start end_ :
  length tsec = n -> length (build_mask n tsec start end_) = n.
Proof.
  intros Hlen. unfold build_mask, and_series.
  destruct start, end_;
    rewrite ?length_zip_with, ?length_map, ?length_replicate, ?Hlen; lia.
Qed.

Lemma mask_bit_inside t start end_ :
  mask_bit t start end_ = true <-> inside_window t start end_.
Proof.
  unfold mask_bit, inside_window. rewrite andb_true_iff.
  assert (forall (P P' Q Q' : Prop), (P <-> P') -> (Q <-> Q') -> (P /\ Q <-> P' /\ Q'))
    as Hand by tauto.
  apply Hand.
  - destruct start as [s|].
    + rewrite fge_spec. split.
      * intros (a & b & -> & -> & H). right. by exists a, b.
      * intros [|(a & b & -> & [= ->] & H)]; [done|]. by exists a, b.
    + split; auto.
  - destruct end_ as [e|].
    + rewrite fle_spec. split.
      * intros (a & b & -> & -> & H). right. by exists a, b.
      * intros [|(a & b & -> & [= ->] & H)]; [done|]. by exists a, b.
    + split; auto.
Qed.

(** C8.  In the summary loop the mask has one entry per row, and the entry
    of a row is true exactly when (the start bound is absent or the elapsed
    value is at least the start) and (the end bound is absent or the elapsed
    value is at most the end), both bounds inclusive; a row whose elapsed
    value is missing is excluded as soon as one bound is present. *)
Theorem summary_mask_inclusive (df : DataFrame) (time_col : string)
    (start end_ : option float) :
  df_wf df ->
  in_columns time_col df = true ->
  exists tsec : list float,
    extract_datetime_col df time_col = Ok tsec /\
    length tsec = df_len df /\
    length (build_mask (df_len df) tsec start end_) = df_len df /\
    forall (i : nat) (t : float),
      tsec !! i = Some t ->
      (build_mask (df_len df) tsec start end_ !! i = Some true
       <-> inside_window t start end_) /\
      (build_mask (df_len df) tsec start end_ !! i = Some false
       <-> ~ inside_window t start end_) /\
      (t = NaN -> start <> None \/ end_ <> None ->
       build_mask (df_len df) tsec start end_ !! i = Some false).
Proof.
  intros Hwf Hin.
  destruct (in_columns_getitem _ _ Hin) as [xs Hxs].
  destruct (extract_datetime_col_length _ _ _ Hxs) as (tsec & Hts & Hlen).
  assert (Hn : length tsec = df_len df).
  { rewrite Hlen. by apply (df_getitem_length df time_col). }
  exists tsec. split; [done|]. split; [done|].
  split; [by apply build_mask_length|].
  intros i t Ht.
  assert (Hi : i < df_len df).
  { rewrite <- Hn. by apply lookup_lt_Some in Ht. }
  rewrite (build_mask_lookup _ _ start end_ _ _ Hi Ht).
  pose proof (mask_bit_inside t start end_) as Hb.
  split; [|split].
  - rewrite <- Hb. split; [by intros [= ->]|by intros ->].
  - rewrite <- Hb. by destruct (mask_bit t start end_).
  - intros -> Hsome. f_equal. unfold mask_bit.
    destruct start, end_; simpl; try done.
    by destruct Hsome.
Qed.

(** ** Preview and export *)

Lemma preview_export_slots df mask metric_types axis_map :
  preview_slots df mask metric_types axis_map = export_slots df mask metric_types axis_map.
Proof.
  induction axis_map as [|[a col] rest IH]; simpl; [done|].
  unfold preview_vals, export_vals. by rewrite IH.
Qed.

Lemma preview_export_row df f time_col axis_map metric_types start end_ :
  preview_row df f time_col axis_map metric_types start end_
  = export_row df f time_col axis_map metric_types start end_.
Proof.
  unfold preview_row, export_row.
  destruct (extract_datetime_col df time_col); simpl; [|done].
  by rewrite preview_export_slots.
Qed.

(** C9.  On the same loaded tables, selected files, time column, axis
    bindings, metric list and time window, the preview and the export
    compute the same summary rows and the same column labels. *)
Theorem preview_export_agree (loaded : gmap string DataFrame) (time_col : string)
    (axis_map : list (string * string)) (metric_types : list string)
    (start end_ : option float) (files : list string) :
  preview_rows loaded time_col axis_map metric_types start end_ files
  = export_rows loaded time_col axis_map metric_types start end_ files /\
  preview_columns axis_map metric_types = export_columns axis_map metric_types.
Proof.
  split; [|reflexivity].
  induction files as [|f rest IH]; simpl; [done|].
  destruct (loaded !! f) as [df|]; [|done].
  destruct (negb (in_columns time_col df)); [done|].
  by rewrite preview_export_row, IH.
Qed.

(** With the cache that [load_selected_dataframes] leaves, no file passes
    the guard of the summary loop. *)
Lemma preview_rows_empty_cache time_col axis_map metric_types start end_ files :
  preview_rows ∅ time_col axis_map metric_types start end_ files = Ok [].
Proof.
  induction files as [|f rest IH]; simpl; [done|]. by rewrite lookup_empty.
Qed.

(** ** The shape of the summary table *)

(** The metric lists that [get_selected_summary_metrics] can return hold
    known names only. *)
Lemma selected_metrics_known w answer metric_types w' :
  custom_metrics w = ["mean"; "median"; "min"; "max"; "std"] ->
  get_selected_summary_metrics w answer = Ok (metric_types, w') ->
  Forall known_metric metric_types.
Proof.
  intros Hcm. unfold get_selected_summary_metrics.
  assert (Hmean : Forall known_metric ["mean"]) by (repeat constructor).
  repeat match goal with
         | |- context [if ?b then _ else _] => destruct b
         end;
    try (intros Heq; injection Heq as <- _; unfold known_metric;
         repeat constructor; fail).
  unfold rbind. destruct (resolve _ _); [|done].
  destruct answer as [metrics ok].
  destruct ok; [|by intros Heq; injection Heq as <- _].
  destruct (List.filter _ _) as [|m ms] eqn:Hf;
    intros Heq; injection Heq as <- _; [done|].
  rewrite <- Hf. apply Forall_forall. intros x Hx.
  apply list_elem_of_In, filter_In in Hx as [_ Hx].
  apply bool_decide_eq_true in Hx. unfold known_metric. by rewrite <- Hcm.
Qed.

Lemma preview_metric_known mt vals :
  known_metric mt -> exists x, preview_metric mt vals = [x].
Proof.
  unfold known_metric. rewrite !elem_of_cons, elem_of_nil.
  intros [->|[->|[->|[->|[->|[]]]]]]; by eexists.
Qed.

Lemma preview_metric_empty mt :
  known_metric mt -> preview_metric mt [] = [NaN].
Proof.
  unfold known_metric. rewrite !elem_of_cons, elem_of_nil.
  by intros [->|[->|[->|[->|[->|[]]]]]].
Qed.

Lemma metrics_length metric_types vals :
  Forall known_metric metric_types ->
  length (flat_map (fun mt => preview_metric mt vals) metric_types) = length metric_types.
Proof.
  induction 1 as [|mt mts Hmt _ IH]; simpl; [done|].
  destruct (preview_metric_known mt vals Hmt) as [x ->]. simpl. by rewrite IH.
Qed.

Lemma metrics_empty metric_types :
  Forall known_metric metric_types ->
  flat_map (fun mt => preview_metric mt []) metric_types
  = replicate (length metric_types) NaN.
Proof.
  induction 1 as [|mt mts Hmt _ IH]; simpl; [done|].
  by rewrite (preview_metric_empty mt Hmt), IH.
Qed.

Lemma preview_vals_total df mask col :
  exists vals, preview_vals df mask col = Ok vals /\
               (in_columns col df = false -> vals = []).
Proof.
  unfold preview_vals. destruct (in_columns col df) eqn:Hin.
  - destruct (in_columns_getitem _ _ Hin) as [xs ->]. simpl. by eexists.
  - by eexists.
Qed.

Lemma preview_slots_shape df mask metric_types axis_map :
  Forall known_metric metric_types ->
  exists cells,
    preview_slots df mask metric_types axis_map = Ok cells /\
    length cells = length axis_map * length metric_types /\
    forall i a col j,
      axis_map !! i = Some (a, col) -> in_columns col df = false ->
      j < length metric_types ->
      cells !! (i * length metric_types + j) = Some (PFloat NaN).
Proof.
  intros Hk. induction axis_map as [|[a col] rest (cells & Hc & Hlen & Hnan)]; simpl.
  - exists []. split; [done|]. split; [done|]. by intros i a col j.
  - destruct (preview_vals_total df mask col) as (vals & -> & Hvals). simpl.
    rewrite Hc. simpl. eexists. split; [done|].
    assert (Hm : length (map PFloat (flat_map (fun mt => preview_metric mt vals) metric_types))
                 = length metric_types).
    { by rewrite length_map, metrics_length. }
    split.
    { rewrite length_app, Hm, Hlen. lia. }
    intros [|i] b c j Hi Hin Hj; simpl in Hi.
    + injection Hi as -> ->. simpl.
      rewrite lookup_app_l by lia.
      rewrite (Hvals Hin), (metrics_empty _ Hk), lookup_map.
      by rewrite lookup_replicate_2.
    + rewrite lookup_app_r by lia. rewrite Hm.
      replace (S i * length metric_types + j - length metric_types)
        with (i * length metric_types + j) by lia.
      by eapply Hnan.
Qed.

Lemma preview_row_shape df f time_col axis_map metric_types start end_ :
  Forall known_metric metric_types ->
  in_columns time_col df = true ->
  exists row,
    preview_row df f time_col axis_map metric_types start end_ = Ok row /\
    length row = 1 + length axis_map * length metric_types /\
    row !! 0 = Some (PStr (basename f)) /\
    forall i a col j,
      axis_map !! i = Some (a, col) -> in_columns col df = false ->
      j < length metric_types ->
      row !! (1 + i * length metric_types + j) = Some (PFloat NaN).
Proof.
  intros Hk Hin. unfold preview_row.
  destruct (in_columns_getitem _ _ Hin) as [xs Hxs].
  destruct (extract_datetime_col_length _ _ _ Hxs) as (tsec & -> & _). simpl.
  destruct (preview_slots_shape df (build_mask (df_len df) tsec start end_)
              metric_types axis_map Hk) as (cells & -> & Hlen & Hnan).
  simpl. eexists. split; [done|]. split; [by rewrite <- Hlen|].
  split; [done|]. intros i a col j Hi Hc Hj. simpl. by eapply Hnan.
Qed.

Lemma preview_columns_length axis_map metric_types :
  length (preview_columns axis_map metric_types)
  = 1 + length axis_map * length metric_types.
Proof.
  unfold preview_columns. simpl. f_equal.
  induction axis_map as [|ac rest IH]; simpl; [done|].
  by rewrite length_app, length_map, IH.
Qed.

(** C10.  With metric names among the five, the summary has one row per
    processed file, and each row has the file name followed by one value per
    slot and metric, so rows and labels alike count
    1 + (number of slots * number of metrics) entries whatever columns the
    tables hold; the entries of a slot whose bound column (empty or not) is
    absent from the table are all missing values. *)
Theorem summary_table_shape (loaded : gmap string DataFrame) (time_col : string)
    (axis_map : list (string * string)) (metric_types : list string)
    (start end_ : option float) (files : list string) :
  Forall known_metric metric_types ->
  exists rows : list (list pyval),
    preview_rows loaded time_col axis_map metric_types start end_ files = Ok rows /\
    length (preview_columns axis_map metric_types)
    = 1 + length axis_map * length metric_types /\
    Forall (fun row => length row = 1 + length axis_map * length metric_types) rows /\
    forall (f : string) (df : DataFrame),
      f ∈ files -> loaded !! f = Some df -> in_columns time_col df = true ->
      exists row : list pyval,
        row ∈ rows /\
        row !! 0 = Some (PStr (basename f)) /\
        forall (i : nat) (a col : string) (j : nat),
          axis_map !! i = Some (a, col) -> in_columns col df = false ->
          j < length metric_types ->
          row !! (1 + i * length metric_types + j) = Some (PFloat NaN).
Proof.
  intros Hk.
  induction files as [|f rest (rows & Hrows & _ & Hall & Hin)]; simpl.
  - exists []. split; [done|]. split; [apply preview_columns_length|].
    split; [constructor|]. intros f df Hf. by apply elem_of_nil in Hf.
  - destruct (loaded !! f) as [df|] eqn:Hl.
    + destruct (in_columns time_col df) eqn:Ht; simpl.
      * destruct (preview_row_shape df f time_col axis_map metric_types start end_ Hk Ht)
          as (row & -> & Hlen & Hhd & Hnan).
        simpl. rewrite Hrows. simpl. exists (row :: rows).
        split; [done|]. split; [apply preview_columns_length|].
        split; [by constructor|].
        intros g dg Hg Hlg Htg. apply elem_of_cons in Hg as [->|Hg].
        -- exists row. assert (dg = df) as -> by congruence.
           split; [apply list_elem_of_here|]. by split.
        -- destruct (Hin g dg Hg Hlg Htg) as (r & Hr & H0 & Hn).
           exists r. split; [by apply list_elem_of_further|]. by split.
      * exists rows. split; [done|]. split; [apply preview_columns_length|].
        split; [done|].
        intros g dg Hg Hlg Htg. apply elem_of_cons in Hg as [->|Hg]; [congruence|].
        by apply Hin.
    + exists rows. split; [done|]. split; [apply preview_columns_length|].
      split; [done|].
      intros g dg Hg Hlg Htg. apply elem_of_cons in Hg as [->|Hg]; [congruence|].
      by apply Hin.
Qed.

End Properties.


(** * Further properties *)

Section FurtherProperties.
Context {R : Runtime}.

(** ** File discovery *)

Lemma fold_left_snoc_if {A B : Type} (P : A -> bool) (g : A -> B) (l : list A) (init : list B) :
  fold_left (fun r x => if P x then r ++ [g x] else r) l init
  = init ++ map g (List.filter P l).
Proof.
  revert init. induction l as [|x l IH]; intros init; simpl.
  - by rewrite app_nil_r.
  - rewrite IH. destruct (P x); simpl; [|done]. by rewrite <- app_assoc.
Qed.

Lemma find_data_files_flat_map root tree exts :
  find_data_files root tree exts
  = flat_map (fun e => map (path_join (fst e)) (List.filter (has_data_ext exts) (snd e)))
             (walk root tree).
Proof.
  unfold find_data_files.
  assert (H : forall l init,
             fold_left
               (fun result entry =>
                  fold_left
                    (fun result fname =>
                       if has_data_ext exts fname
                       then result ++ [path_join (fst entry) fname] else result)
                    (snd entry) result) l init
             = init ++ flat_map
                 (fun e => map (path_join (fst e)) (List.filter (has_data_ext exts) (snd e))) l).
  { induction l as [|e l IH]; intros init; simpl.
    - by rewrite app_nil_r.
    - rewrite IH, (fold_left_snoc_if (has_data_ext exts) (path_join (fst e))).
      by rewrite <- app_assoc. }
  by rewrite H.
Qed.

Lemma find_data_files_elem (root : string) (tree : dir) (exts : list string)
    (p : string) :
  p ∈ find_data_files root tree exts ->
  exists (dirpath : string) (filenames : list string) (fname : string),
    (dirpath, filenames) ∈ walk root tree /\
    fname ∈ filenames /\
    has_data_ext exts fname = true /\
    p = path_join dirpath fname.
Proof.
  rewrite find_data_files_flat_map, list_elem_of_In, in_flat_map.
  intros ([dirpath filenames] & He & Hp). simpl in Hp.
  apply in_map_iff in Hp as (fname & <- & Hf).
  apply filter_In in Hf as [Hf Hext].
  exists dirpath, filenames, fname.
  by rewrite !list_elem_of_In.
Qed.

(** X1.  A path is found exactly when it joins the path of a directory the
    walk can list with one of its file names whose lower-cased form ends in
    one of the extensions. *)
Theorem find_data_files_found (root : string) (tree : dir) (exts : list string)
    (p : string) :
  p ∈ find_data_files root tree exts <->
  exists (dirpath : string) (filenames : list string) (fname : string),
    (dirpath, filenames) ∈ walk root tree /\
    fname ∈ filenames /\
    has_data_ext exts fname = true /\
    p = path_join dirpath fname.
Proof.
  rewrite find_data_files_flat_map, list_elem_of_In, in_flat_map. split.
  - intros ([dirpath filenames] & He & Hp). simpl in Hp.
    apply in_map_iff in Hp as (fname & <- & Hf).
    apply filter_In in Hf as [Hf Hext].
    exists dirpath, filenames, fname.
    by rewrite !list_elem_of_In.
  - intros (dirpath & filenames & fname & He & Hf & Hext & ->).
    exists (dirpath, filenames). split; [by apply list_elem_of_In|].
    simpl. apply in_map_iff. exists fname. split; [done|].
    apply filter_In. split; [by apply list_elem_of_In|done].
Qed.

Lemma prefix_slash c f : String.prefix "/" (String c f) = Ascii.eqb c "/".
Proof.
  change (String.prefix "/" (String c f))
    with (if Ascii.ascii_dec "/" c then String.prefix "" f else false).
  destruct (Ascii.ascii_dec "/" c) as [<-|Hc].
  - by destruct f.
  - symmetry. apply Ascii.eqb_neq. congruence.
Qed.

Lemma contains_slash_cons c f :
  contains "/" (String c f) = Ascii.eqb c "/" || contains "/" f.
Proof.
  change (contains "/" (String c f))
    with (String.prefix "/" (String c f) || contains "/" f).
  by rewrite prefix_slash.
Qed.

Lemma basename_from_no_slash acc f :
  contains "/" f = false -> basename_from acc f = acc.
Proof.
  revert acc. induction f as [|c f IH]; intros acc; [done|].
  rewrite contains_slash_cons. intros H. apply orb_false_iff in H as [Hc Hf].
  change (basename_from acc (String c f))
    with (if Ascii.eqb c "/" then basename_from f f else basename_from acc f).
  rewrite Hc. by apply IH.
Qed.

Lemma basename_after_slash acc d f :
  contains "/" f = false ->
  basename_from acc (d ++ String "/" f) = f.
Proof.
  intros Hf. revert acc. induction d as [|c d IH]; intros acc.
  - change (basename_from acc ("" ++ String "/" f)) with (basename_from f f).
    by apply basename_from_no_slash.
  - change (basename_from acc (String c d ++ String "/" f))
      with (if Ascii.eqb c "/"
            then basename_from (d ++ String "/" f) (d ++ String "/" f)
            else basename_from acc (d ++ String "/" f)).
    destruct (Ascii.eqb c "/"); apply IH.
Qed.

Lemma endswith_split s suffix :
  endswith s suffix = true -> exists p, s = (p ++ suffix)%string.
Proof.
  induction s as [|c s IH].
  - change (endswith "" suffix) with (String.eqb "" suffix || false).
    rewrite orb_false_r. intros H. apply String.eqb_eq in H. subst. by exists "".
  - change (endswith (String c s) suffix)
      with (String.eqb (String c s) suffix || endswith s suffix).
    intros H. apply orb_true_iff in H as [H|H].
    + apply String.eqb_eq in H. rewrite <- H. by exists "".
    + destruct (IH H) as [p ->]. by exists (String c p).
Qed.

Lemma append_slash (p f : string) :
  ((p ++ "/") ++ f)%string = (p ++ String "/" f)%string.
Proof.
  induction p as [|c p IH]; [done|].
  change (String c ((p ++ "/") ++ f) = String c (p ++ String "/" f))%string.
  by f_equal.
Qed.

Lemma basename_path_join d fname :
  contains "/" fname = false -> basename (path_join d fname) = fname.
Proof.
  intros Hf. unfold path_join, startswith.
  destruct (String.prefix "/" fname) eqn:Hp.
  { destruct fname as [|c f]; [done|].
    rewrite prefix_slash in Hp. rewrite contains_slash_cons, Hp in Hf. done. }
  unfold basename.
  destruct (String.eqb d "") eqn:Hd; simpl.
  { apply String.eqb_eq in Hd. subst. simpl. by apply basename_from_no_slash. }
  destruct (endswith d "/") eqn:He.
  - destruct (endswith_split _ _ He) as [p ->].
    rewrite append_slash. by apply basename_after_slash.
  - by apply basename_after_slash.
Qed.

(** X2.  When the file names of the tree hold no slash, the display name
    ([os.path.basename]) of every path found is the file name itself and so
    ends, case-insensitively, in one of the extensions. *)
Theorem find_data_files_basename (root : string) (tree : dir) (exts : list string) :
  (forall (dirpath : string) (filenames : list string) (fname : string),
      (dirpath, filenames) ∈ walk root tree -> fname ∈ filenames ->
      contains "/" fname = false) ->
  forall p : string,
    p ∈ find_data_files root tree exts ->
    has_data_ext exts (basename p) = true.
Proof.
  intros Hns p Hp.
  apply find_data_files_elem in Hp as (dirpath & filenames & fname & He & Hf & Hext & ->).
  by rewrite (basename_path_join _ _ (Hns _ _ _ He Hf)).
Qed.

(** ** Headers *)

Lemma read_file_headers_fold files (m : gmap string (list string)) (f : string) :
  fold_left
    (fun headers f =>
       match read_csv f (Some 1%nat) "." with
       | Ok df => <[f := df_columns df]> headers
       | Raise _ => <[f := []]> headers
       end) files m !! f
  = if decide (f ∈ files)
    then Some (match read_csv f (Some 1%nat) "." with
               | Ok df => df_columns df
               | Raise _ => []
               end)
    else m !! f.
Proof.
  revert m. induction files as [|g files IH]; intros m; simpl.
  - destruct (decide (f ∈ [])) as [H|_]; [by apply elem_of_nil in H|done].
  - rewrite IH. destruct (decide (f ∈ files)) as [Hin|Hnin].
    + rewrite decide_True; [done|by apply list_elem_of_further].
    + destruct (decide (f = g)) as [->|Hne].
      * rewrite decide_True by apply list_elem_of_here.
        destruct (read_csv g (Some 1%nat) "."); by rewrite lookup_insert_eq.
      * rewrite decide_False.
        -- destruct (read_csv g (Some 1%nat) "."); by rewrite lookup_insert_ne.
        -- intros H. apply elem_of_cons in H as [?|?]; done.
Qed.

(** X3.  [read_file_headers] has an entry exactly for the files it was
    given: the header of the file when its first row can be read, and the
    empty list when reading fails. *)
Theorem read_file_headers_entries (files : list string) (f : string) :
  (f ∈ files ->
   read_file_headers files !! f
   = Some (match read_csv f (Some 1%nat) "." with
           | Ok df => df_columns df
           | Raise _ => []
           end)) /\
  (f ∉ files -> read_file_headers files !! f = None).
Proof.
  unfold read_file_headers. rewrite read_file_headers_fold. split; intros H.
  - by rewrite decide_True.
  - by rewrite decide_False.
Qed.

(** ** The file list *)

Lemma filter_files_fold (P : string -> bool) data (acc : list (string * bool) * list string) :
  fold_left
    (fun acc filepath =>
       if P filepath
       then (fst acc ++ [(basename filepath, false)], snd acc ++ [filepath])
       else acc) data acc
  = (fst acc ++ map (fun p => (basename p, false)) (List.filter P data),
     snd acc ++ List.filter P data).
Proof.
  revert acc. induction data as [|p data IH]; intros [its ff]; simpl.
  - by rewrite !app_nil_r.
  - rewrite IH. destruct (P p); simpl; [|done]. by rewrite <- !app_assoc.
Qed.

Lemma selected_from_unchecked i (l : list string) ff :
  selected_from i (map (fun p => (basename p, false)) l) ff = Ok [].
Proof. revert i. induction l as [|p l IH]; intros i; simpl; [done|apply IH]. Qed.

Lemma filter_files_unfold file_list_data filter_text w :
  filtered_files (filter_files file_list_data filter_text w)
  = List.filter (fun p => contains (lower filter_text) (lower (basename p))) file_list_data /\
  file_list (filter_files file_list_data filter_text w)
  = map (fun p => (basename p, false))
        (List.filter (fun p => contains (lower filter_text) (lower (basename p)))
                     file_list_data) /\
  get_selected_files (filter_files file_list_data filter_text w) = Ok [].
Proof.
  unfold filter_files.
  rewrite (filter_files_fold
             (fun p => contains (lower filter_text) (lower (basename p)))).
  simpl. split; [done|]. split; [done|].
  unfold get_selected_files. simpl. apply selected_from_unchecked.
Qed.

(** X4.  After [filter_files] the list widget and [filtered_files] run in
    step: the kept paths are those of the catalogue, in order, whose display
    name contains the filter text case-insensitively, every item shows the
    display name of its path and is unchecked, so no file is selected. *)
Theorem filter_files_lists (file_list_data : list string) (filter_text : string)
    (w : EngineTestDataExplorer) :
  let w' := filter_files file_list_data filter_text w in
  filtered_files w'
  = List.filter (fun p => contains (lower filter_text) (lower (basename p))) file_list_data /\
  file_list w' = map (fun p => (basename p, false)) (filtered_files w') /\
  length (file_list w') = length (filtered_files w') /\
  get_selected_files w' = Ok [].
Proof.
  intros w'. destruct (filter_files_unfold file_list_data filter_text w) as (Hf & Hl & Hs).
  fold w' in Hf, Hl, Hs. split; [done|]. rewrite Hl, Hf.
  split; [done|]. split; [by rewrite length_map|done].
Qed.

Lemma selected_from_zip i its ff :
  length its + i <= length ff ->
  selected_from i its ff
  = Ok (map snd (List.filter fst (zip (map snd its) (drop i ff)))).
Proof.
  revert i. induction its as [|[t checked] its IH]; intros i Hlen; simpl; [done|].
  simpl in Hlen.
  destruct (lookup_lt_is_Some_2 ff i) as [p Hp]; [lia|].
  rewrite (drop_S _ _ _ Hp). simpl.
  destruct checked; simpl.
  - rewrite Hp, IH by lia. done.
  - rewrite IH by lia. done.
Qed.

(** X5.  When the list widget has no more items than [filtered_files] has
    paths, [get_selected_files] returns, in order, the paths at the positions
    of the checked items; each of them is one of the filtered files. *)
Theorem get_selected_files_checked (w : EngineTestDataExplorer) :
  length (file_list w) <= length (filtered_files w) ->
  exists sel : list string,
    get_selected_files w = Ok sel /\
    sel = map snd (List.filter fst (zip (map snd (file_list w)) (filtered_files w))) /\
    forall p : string, p ∈ sel -> p ∈ filtered_files w.
Proof.
  intros Hlen. eexists. split.
  { unfold get_selected_files. rewrite selected_from_zip by lia. by rewrite drop_0. }
  split; [done|].
  intros p Hp. apply list_elem_of_In, in_map_iff in Hp as ([b q] & <- & Hq).
  apply filter_In in Hq as [Hq _]. apply list_elem_of_In in Hq.
  by apply elem_of_zip_r in Hq.
Qed.

Lemma selected_from_out_of_range i its ff j t :
  its !! j = Some (t, true) -> length ff <= i + j ->
  selected_from i its ff = Raise (IndexError "list index out of range").
Proof.
  revert i j. induction its as [|[u checked] its IH]; intros i j Hj Hlen; [done|].
  simpl. destruct j as [|j]; simpl in Hj.
  - injection Hj as -> ->. rewrite lookup_ge_None_2 by lia. done.
  - assert (Hrest : selected_from (S i) its ff
                    = Raise (IndexError "list index out of range")).
    { apply (IH _ j); [done|lia]. }
    destruct checked; [|done].
    destruct (ff !! i); [|done]. by rewrite Hrest.
Qed.

(** X6.  A checked item whose position lies beyond the end of
    [filtered_files] makes [get_selected_files] fail with [IndexError]. *)
Theorem get_selected_files_out_of_range (w : EngineTestDataExplorer)
    (j : nat) (t : string) :
  file_list w !! j = Some (t, true) ->
  length (filtered_files w) <= j ->
  get_selected_files w = Raise (IndexError "list index out of range").
Proof.
  intros Hj Hlen. unfold get_selected_files.
  apply (selected_from_out_of_range 0 _ _ j t); [done|lia].
Qed.

(** ** Loading, for every selection *)

Lemma load_selected_dataframes_eq (w : EngineTestDataExplorer) (files : list string) :
  get_selected_files w = Ok files ->
  load_selected_dataframes w
  = Ok (set_loaded_dfs ∅ w,
        match files with
        | [] => []
        | _ => [Warning "File Load Errors"
                  (String.concat newline
                     (map (fun f => (basename f ++ ": name 'filepath' is not defined")%string)
                          files))]
        end).
Proof.
  intros Hsel. unfold load_selected_dataframes. rewrite Hsel. unfold rbind.
  rewrite load_files_all_fail. by destruct files.
Qed.

(** X7.  Whatever is selected, [load_selected_dataframes] goes through the
    whole selection and returns normally; it replaces the cache by the empty
    mapping, keeping nothing of the tables cached before, and, when some
    file is selected, shows one warning whose text has one line per selected
    file. *)
Theorem load_selected_dataframes_replaces (w : EngineTestDataExplorer)
    (files : list string) :
  get_selected_files w = Ok files ->
  load_selected_dataframes w
  = Ok (set_loaded_dfs ∅ w,
        match files with
        | [] => []
        | _ => [Warning "File Load Errors"
                  (String.concat newline
                     (map (fun f => (basename f ++ ": name 'filepath' is not defined")%string)
                          files))]
        end).
Proof.
  intros Hsel. unfold load_selected_dataframes. rewrite Hsel. unfold rbind.
  rewrite load_files_all_fail. by destruct files.
Qed.

(** ** Column choices *)

(** X8.  As soon as one file is checked, [populate_column_choices], and
    with it the handler [on_file_checked], fails with the [NameError] of
    [unique_numeric_columns]: the choices are never rebuilt from a file. *)
Theorem populate_column_choices_selection (w : EngineTestDataExplorer)
    (f : string) (fs : list string) :
  get_selected_files w = Ok (f :: fs) ->
  populate_column_choices w = Raise (NameError "self") /\
  on_file_checked w = Raise (NameError "self").
Proof.
  intros Hsel. unfold on_file_checked, populate_column_choices.
  rewrite Hsel. unfold rbind. by rewrite unique_numeric_columns_raises.
Qed.

Lemma refill_combo_nil i cb : refill_combo [] i cb = cb_new.
Proof.
  unfold refill_combo.
  rewrite (bool_decide_eq_false_2 (_ ∈ [])) by apply not_elem_of_nil.
  by rewrite andb_false_r.
Qed.

Lemma populate_success w w' :
  populate_column_choices w = Ok w' ->
  get_selected_files w = Ok [] /\
  w' = set_combos cb_new
         (imap (fun (i : nat) row => {| axis_item := axis_item row; axis_combo := cb_new |})
               (axis_table w)) w.
Proof.
  unfold populate_column_choices.
  destruct (get_selected_files w) as [[|f fs]|e]; unfold rbind.
  - simpl. intros Heq. injection Heq as <-. split; [done|].
    f_equal. apply imap_ext. intros i row _. by rewrite refill_combo_nil.
  - by rewrite unique_numeric_columns_raises.
  - done.
Qed.

Lemma populate_column_choices_blank_aux w w' :
  populate_column_choices w = Ok w' ->
  get_selected_time_column w' = "" /\
  Forall (fun ac => snd ac = "") (get_axis_column_mapping w') /\
  file_list w' = file_list w /\
  filtered_files w' = filtered_files w.
Proof.
  intros H. apply populate_success in H as [Hsel ->].
  split; [done|]. split; [|done].
  unfold get_axis_column_mapping. simpl.
  apply Forall_lookup. intros i [a c] Hi.
  rewrite list_lookup_imap, list_lookup_imap in Hi.
  destruct (axis_table w !! i) as [row|]; simpl in Hi; [|done].
  by injection Hi as _ <-.
Qed.

(** X9.  Whenever [populate_column_choices] returns normally, no file is
    checked and it leaves every combo box empty: no time column is selected
    and every axis slot is bound to the empty column name. *)
Theorem populate_column_choices_blank (w w' : EngineTestDataExplorer) :
  populate_column_choices w = Ok w' ->
  get_selected_files w = Ok [] /\
  get_selected_time_column w' = "" /\
  length (get_axis_column_mapping w') = slot_count w /\
  Forall (fun ac => snd ac = "") (get_axis_column_mapping w').
Proof.
  intros H. apply populate_success in H as [Hsel ->].
  split; [done|]. split; [done|].
  unfold get_axis_column_mapping, slot_count. simpl. split.
  - by rewrite !length_imap.
  - apply Forall_lookup. intros i [a c] Hi.
    rewrite list_lookup_imap, list_lookup_imap in Hi.
    destruct (axis_table w !! i) as [row|]; simpl in Hi; [|done].
    by injection Hi as _ <-.
Qed.

(** X10.  When a scan completes, whatever it found and whatever the filter
    text, the handler returns normally with no file checked, the list widget
    in step with the filtered paths, and every combo box empty. *)
Theorem folder_scan_complete_state (files : list string) (filter_text : string)
    (w : EngineTestDataExplorer) :
  let r := folder_scan_complete files filter_text w in
  snd r = Returned /\
  get_selected_files (fst r) = Ok [] /\
  filtered_files (fst r)
  = List.filter (fun p => contains (lower filter_text) (lower (basename p))) files /\
  file_list (fst r) = map (fun p => (basename p, false)) (filtered_files (fst r)) /\
  get_selected_time_column (fst r) = "" /\
  Forall (fun ac => snd ac = "") (get_axis_column_mapping (fst r)).
Proof.
  unfold folder_scan_complete.
  destruct (filter_files_unfold files filter_text w) as (Hf & Hl & Hsel).
  destruct (populate_no_selection _ Hsel) as [w2 Hw2]. rewrite Hw2. simpl.
  pose proof (populate_selected_files _ _ Hw2) as Hs2.
  destruct (populate_column_choices_blank_aux _ _ Hw2) as (Ht & Hm & Hfl & Hff).
  split; [done|]. split; [by rewrite Hs2|].
  rewrite Hfl, Hff, Hl, Hf. by split; [|split].
Qed.

(** ** The axis controls *)

Lemma fmap_axis_item_imap (g : nat -> axis_row -> QComboBox) (l : list axis_row) :
  axis_item <$> imap (fun i row => {| axis_item := axis_item row; axis_combo := g i row |}) l
  = axis_item <$> l.
Proof.
  apply list_eq. intros i.
  rewrite !list_lookup_fmap, list_lookup_imap. by destruct (l !! i).
Qed.

(** What the call of [populate_column_choices] that ends the axis methods
    leaves alone, whether it fails or not. *)
Lemma populate_outcome_keeps w1 :
  let w2 := fst (match populate_column_choices w1 with
                 | Ok w2 => (w2, Returned)
                 | Raise e => (w1, Failed e)
                 end) in
  axis_rows w2 = axis_rows w1 /\
  axis_map w2 = axis_map w1 /\
  axis_item <$> axis_table w2 = axis_item <$> axis_table w1 /\
  slot_count w2 = slot_count w1.
Proof.
  destruct (populate_column_choices w1) as [w2|e] eqn:Hp; simpl; [|done].
  pose proof (populate_slot_count _ _ Hp) as Hc.
  apply populate_success in Hp as [_ ->]. simpl.
  split; [done|]. split; [done|]. split; [|done].
  apply fmap_axis_item_imap.
Qed.

Lemma add_axis_row_lists w :
  slot_count w < 4 ->
  axis_rows (fst (add_axis_row w)) = axis_rows w ++ [nth (slot_count w) axis_names ""] /\
  axis_map (fst (add_axis_row w)) = axis_map w ++ [("", "")] /\
  axis_item <$> axis_table (fst (add_axis_row w))
  = (axis_item <$> axis_table w) ++ [Some (nth (slot_count w) axis_names "")] /\
  slot_count (fst (add_axis_row w)) = S (slot_count w).
Proof.
  intros Hlt. unfold add_axis_row. fold (slot_count w).
  destruct (4 <=? slot_count w)%nat eqn:Hfull.
  { apply Nat.leb_le in Hfull. lia. }
  match goal with |- context [populate_column_choices ?x] => set (w1 := x) end.
  destruct (populate_outcome_keeps w1) as (Hr & Hm & Hi & Hc).
  rewrite Hr, Hm, Hi, Hc. unfold w1, slot_count. simpl.
  rewrite fmap_app, length_app. simpl. repeat split; lia.
Qed.

Lemma delete_out_of_range {A : Type} (i : nat) (l : list A) :
  length l <= i -> delete i l = l.
Proof.
  revert i. induction l as [|x l IH]; intros [|i] H; simpl in *; try done; try lia.
  f_equal. apply IH. lia.
Qed.

Lemma remove_axis_row_lists idx w :
  1 < slot_count w ->
  axis_item <$> axis_table (fst (remove_axis_row idx w))
  = delete idx (axis_item <$> axis_table w) /\
  slot_count (fst (remove_axis_row idx w))
  = (if (idx <? slot_count w)%nat then slot_count w - 1 else slot_count w) /\
  (length (axis_rows w) = slot_count w -> length (axis_map w) = slot_count w ->
   axis_rows (fst (remove_axis_row idx w)) = delete idx (axis_rows w) /\
   axis_map (fst (remove_axis_row idx w)) = delete idx (axis_map w)).
Proof.
  intros Hgt. unfold remove_axis_row. fold (slot_count w).
  destruct (slot_count w <=? 1)%nat eqn:Hone.
  { apply Nat.leb_le in Hone. lia. }
  assert (Hcount : length (delete idx (axis_table w))
                   = if (idx <? slot_count w)%nat then slot_count w - 1 else slot_count w).
  { unfold slot_count. destruct (idx <? length (axis_table w))%nat eqn:Hi.
    - apply Nat.ltb_lt in Hi. rewrite length_delete; [done|].
      by apply lookup_lt_is_Some_2.
    - apply Nat.ltb_ge in Hi. by rewrite delete_out_of_range. }
  unfold list_pop.
  destruct (idx <? length (axis_rows w))%nat eqn:Hr; simpl.
  - destruct (idx <? length (axis_map w))%nat eqn:Hm; simpl.
    + match goal with |- context [populate_column_choices ?x] => set (w1 := x) end.
      destruct (populate_outcome_keeps w1) as (Hr' & Hm' & Hi' & Hc').
      rewrite Hr', Hm', Hi', Hc'. unfold w1, slot_count at 1. simpl.
      by rewrite list_fmap_delete.
    + unfold slot_count at 1. simpl. rewrite list_fmap_delete.
      split; [done|]. split; [done|]. intros Hlr Hlm.
      apply Nat.ltb_lt in Hr. apply Nat.ltb_ge in Hm. lia.
  - unfold slot_count at 1. simpl. rewrite list_fmap_delete.
    split; [done|]. split; [done|]. intros Hlr Hlm.
    apply Nat.ltb_ge in Hr.
    rewrite !delete_out_of_range by lia. done.
Qed.

Lemma remove_axis_row_guard idx w :
  slot_count w <= 1 ->
  remove_axis_row idx w
  = (w, Showed (Warning "Required" "At least one axis must be present.")).
Proof.
  intros Hle. unfold remove_axis_row. fold (slot_count w).
  apply Nat.leb_le in Hle. by rewrite Hle.
Qed.

Lemma axis_invariant_step w op :
  axis_invariant w -> axis_invariant (axis_step w op).
Proof.
  intros (Hc & Hr & Hm). destruct op as [|idx]; simpl.
  - destruct (decide (slot_count w < 4)) as [Hlt|Hge].
    + destruct (add_axis_row_lists w Hlt) as (Er & Em & _ & Ec).
      unfold axis_invariant. rewrite Er, Em, Ec, !length_app. simpl. lia.
    + rewrite add_axis_row_full by lia. done.
  - destruct (decide (slot_count w <= 1)) as [Hle|Hgt].
    + by rewrite remove_axis_row_guard.
    + destruct (remove_axis_row_lists idx w) as (_ & Ec & Hl); [lia|].
      destruct (Hl Hr Hm) as [Er Em].
      unfold axis_invariant. rewrite Er, Em, Ec.
      destruct (idx <? slot_count w)%nat eqn:Hi.
      * apply Nat.ltb_lt in Hi.
        rewrite !length_delete by (apply lookup_lt_is_Some_2; lia). lia.
      * apply Nat.ltb_ge in Hi. rewrite !delete_out_of_range by lia. lia.
Qed.

(** X11.  The axis controls keep their invariant: from a window with one to
    four slots whose lists [axis_rows] and [axis_map] are as long as the
    table, any sequence of [add_axis_row] and [remove_axis_row] calls, with
    any indices, leads to a window with one to four slots and lists of that
    length. *)
Theorem axis_invariant_kept (w : EngineTestDataExplorer) (ops : list axis_op) :
  axis_invariant w -> axis_invariant (fold_left axis_step ops w).
Proof.
  revert w. induction ops as [|op ops IH]; intros w Hw; simpl; [done|].
  apply IH. by apply axis_invariant_step.
Qed.


Lemma delete_last {A : Type} (l : list A) (x : A) : delete (length l) (l ++ [x]) = l.
Proof. induction l as [|y l IH]; simpl; [done|]. by rewrite IH. Qed.

(** X13.  Adding an axis and then removing the last row is a round trip:
    from a window that satisfies the invariant and has fewer than four
    slots, the slot names, [axis_rows] and [axis_map] are back to what they
    were. *)
Theorem add_then_remove_last (w : EngineTestDataExplorer) :
  axis_invariant w ->
  slot_count w < 4 ->
  let w2 := fst (remove_axis_row (slot_count w) (fst (add_axis_row w))) in
  slot_count w2 = slot_count w /\
  axis_item <$> axis_table w2 = axis_item <$> axis_table w /\
  axis_rows w2 = axis_rows w /\
  axis_map w2 = axis_map w.
Proof.
  intros (Hc & Hr & Hm) Hlt w2.
  destruct (add_axis_row_lists w Hlt) as (Er & Em & Ei & Ec).
  destruct (remove_axis_row_lists (slot_count w) (fst (add_axis_row w)))
    as (Ei' & Ec' & Hl); [lia|].
  destruct Hl as [Er' Em'].
  { rewrite Er, length_app. simpl. lia. }
  { rewrite Em, length_app. simpl. lia. }
  unfold w2. rewrite Ei', Ec', Er', Em', Ei, Er, Em, Ec.
  replace (slot_count w <? S (slot_count w))%nat with true
    by (symmetry; apply Nat.ltb_lt; lia).
  assert (Hli : length (axis_item <$> axis_table w) = slot_count w)
    by (by rewrite length_fmap).
  split; [lia|]. split; [|split].
  - rewrite <- Hli. apply delete_last.
  - rewrite <- Hr. apply delete_last.
  - rewrite <- Hm. apply delete_last.
Qed.

(** ** The metric selection *)

Lemma selected_metrics_builtin w w' answer metric_types :
  get_selected_summary_metrics w answer = Ok (metric_types, w') ->
  w' = w /\
  (metric_types = ["mean"] \/ metric_types = ["median"] \/
   metric_types = ["min"; "max"] \/ metric_types = ["std"]).
Proof.
  unfold get_selected_summary_metrics.
  repeat match goal with
         | |- context [if ?b then _ else _] => destruct b
         end;
    try (intros Heq; injection Heq as <- <-; split; [done|]; tauto).
  unfold rbind. by destruct (resolve _ _) eqn:Hres.
Qed.

(** X14.  When [get_selected_summary_metrics] returns, the window is
    unchanged and the list is one of the four built-in selections: never
    empty, and never a custom one. *)
Theorem get_selected_summary_metrics_builtin (w w' : EngineTestDataExplorer)
    (answer : string * bool) (metric_types : list string) :
  get_selected_summary_metrics w answer = Ok (metric_types, w') ->
  w' = w /\
  (metric_types = ["mean"] \/ metric_types = ["median"] \/
   metric_types = ["min"; "max"] \/ metric_types = ["std"]).
Proof.
  unfold get_selected_summary_metrics.
  repeat match goal with
         | |- context [if ?b then _ else _] => destruct b
         end;
    try (intros Heq; injection Heq as <- <-; split; [done|]; tauto).
  unfold rbind. by destruct (resolve _ _) eqn:Hres.
Qed.

Lemma startswith_custom_not v :
  startswith v "custom" = true ->
  String.eqb v "mean" = false /\ String.eqb v "median" = false /\
  String.eqb v "min/max" = false /\ String.eqb v "std dev" = false.
Proof.
  unfold startswith. destruct v as [|c v]; [done|].
  change (String.prefix "custom" (String c v))
    with (if Ascii.ascii_dec "c" c then String.prefix "ustom" v else false).
  destruct (Ascii.ascii_dec "c" c) as [<-|]; [|done].
  intros _. by repeat split.
Qed.

(** X15.  With the summary type on a text that starts with "custom", in any
    letter case, [get_selected_summary_metrics] fails with [NameError]: the
    dialog class it asks for is not among the imported names. *)
Theorem get_selected_summary_metrics_custom (w : EngineTestDataExplorer)
    (answer : string * bool) :
  startswith (lower (cb_currentText (combo_summary_type w))) "custom" = true ->
  get_selected_summary_metrics w answer = Raise (NameError "QInputDialog").
Proof.
  intros H. unfold get_selected_summary_metrics.
  destruct (startswith_custom_not _ H) as (H1 & H2 & H3 & H4).
  by rewrite H1, H2, H3, H4, H.
Qed.

(** ** Time normalisation, further *)

Lemma df_getitem_absent df col :
  in_columns col df = false -> df_getitem df col = Raise (KeyError col).
Proof.
  unfold in_columns, df_columns. intros H. apply bool_decide_eq_false in H.
  induction df as [|[c ys] df IH]; simpl in *; [done|].
  destruct (String.eqb c col) eqn:Hc.
  - apply String.eqb_eq in Hc. subst. destruct H. apply list_elem_of_here.
  - apply IH. intros Hin. apply H. by apply list_elem_of_further.
Qed.

(** X16.  On a table without the column, [extract_datetime_col] fails with
    [KeyError]: the fallback reads the same column again. *)
Theorem extract_datetime_col_missing (df : DataFrame) (time_col : string) :
  in_columns time_col df = false ->
  extract_datetime_col df time_col = Raise (KeyError time_col).
Proof.
  intros H. unfold extract_datetime_col.
  by rewrite (df_getitem_absent _ _ H).
Qed.

Lemma to_datetime_nil xs : to_datetime xs = Ok [] -> xs = [].
Proof.
  destruct xs as [|c xs]; [done|]. simpl.
  destruct (to_datetime1 c); [|done]. by destruct (to_datetime xs).
Qed.

Lemma sub_timestamp_shift (k : Z) (t t0 : option Z) :
  sub_timestamp (Z.add k <$> t) (Z.add k <$> t0) = sub_timestamp t t0.
Proof. destruct t, t0; simpl; try done. f_equal. lia. Qed.

(** X17.  Elapsed seconds depend on differences only: two columns whose
    timestamps differ by one constant offset normalise to the same
    sequence. *)
Theorem extract_datetime_col_shift (df df' : DataFrame) (time_col time_col' : string)
    (xs xs' : list cell) (ts : list (option Z)) (k : Z) :
  df_getitem df time_col = Ok xs ->
  df_getitem df' time_col' = Ok xs' ->
  to_datetime xs = Ok ts ->
  to_datetime xs' = Ok (map (fmap (Z.add k)) ts) ->
  extract_datetime_col df' time_col' = extract_datetime_col df time_col.
Proof.
  intros Hx Hx' Ht Ht'.
  rewrite (extract_datetime_col_cases _ _ _ Hx), (extract_datetime_col_cases _ _ _ Hx').
  rewrite Ht, Ht'. destruct ts as [|t0 ts]; simpl.
  - apply to_datetime_nil in Ht, Ht'. by subst.
  - f_equal. rewrite sub_timestamp_shift. f_equal.
    rewrite map_map. apply map_ext. intros t. by rewrite sub_timestamp_shift.
Qed.

(** X18.  The reference is the first row, not the first timestamp that
    parses: when the column converts but its first value is missing, every
    elapsed value is missing. *)
Theorem extract_datetime_col_first_missing (df : DataFrame) (time_col : string)
    (xs : list cell) (ts : list (option Z)) :
  df_getitem df time_col = Ok xs ->
  to_datetime xs = Ok (None :: ts) ->
  exists ys : list float,
    extract_datetime_col df time_col = Ok ys /\
    length ys = length xs /\
    Forall (fun y => y = NaN) ys.
Proof.
  intros Hx Ht.
  rewrite (extract_datetime_col_cases _ _ _ Hx), Ht.
  eexists. split; [done|]. split.
  - rewrite length_map. symmetry.
    exact (Forall2_length _ _ _ (to_datetime_ok _ _ Ht)).
  - apply Forall_forall. intros y Hy.
    apply list_elem_of_In, in_map_iff in Hy as (t & <- & _). by destruct t.
Qed.

Lemma Q2Qc_le_num (a b : Z) (d : positive) :
  (a <= b)%Z -> (Q2Qc (a # d) <= Q2Qc (b # d))%Qc.
Proof.
  intros H. unfold Qcle. simpl. rewrite !Qred_correct.
  unfold Qle. simpl. nia.
Qed.

(** X19.  When the column converts and its first row holds a timestamp,
    the elapsed value of a row is the distance of its timestamp to the first
    one, so the order of the timestamps is the order of the elapsed values,
    and a row not earlier than the first has an elapsed value of at least
    0. *)
Theorem extract_datetime_col_order (df : DataFrame) (time_col : string)
    (xs : list cell) (ts : list (option Z)) (t0 a b : Z) (i j : nat) :
  df_getitem df time_col = Ok xs ->
  to_datetime xs = Ok ts ->
  ts !! 0 = Some (Some t0) ->
  ts !! i = Some (Some a) ->
  ts !! j = Some (Some b) ->
  (a <= b)%Z ->
  exists (ys : list float) (ya yb : float),
    extract_datetime_col df time_col = Ok ys /\
    ys !! i = Some ya /\ ys !! j = Some yb /\
    fle ya yb = true /\
    ((t0 <= a)%Z -> fle (Num (Q2Qc 0)) ya = true).
Proof.
  intros Hx Ht H0 Hi Hj Hab.
  rewrite (extract_datetime_col_cases _ _ _ Hx), Ht.
  destruct ts as [|h ts]; [done|]. injection H0 as ->.
  eexists _, _, _. split; [done|].
  rewrite !lookup_map, Hi, Hj. simpl. split; [done|]. split; [done|].
  split.
  - apply bool_decide_eq_true. apply Q2Qc_le_num. lia.
  - intros Hle. apply bool_decide_eq_true.
    replace (Q2Qc 0) with (Q2Qc (0 # 1000000000)) by (by apply Q2Qc_eq_iff).
    apply Q2Qc_le_num. lia.
Qed.

(** ** The window and the values of a slot *)

Lemma select_mask_length_le {A : Type} (xs : list A) (m1 m2 : list bool) :
  Forall2 (fun b1 b2 => b1 = true -> b2 = true) m1 m2 ->
  length (select_mask xs m1) <= length (select_mask xs m2).
Proof.
  intros HF. revert xs. induction HF as [|b1 b2 m1 m2 Hb _ IH]; intros xs.
  - destruct xs; simpl; lia.
  - destruct xs as [|x xs]; simpl; [lia|].
    specialize (IH xs). destruct b1, b2; simpl; lia.
Qed.

Lemma inside_window_wider t s e s' e' :
  start_not_later s s' -> end_not_earlier e e' ->
  inside_window t s' e' -> inside_window t s e.
Proof.
  intros Hs He [Hs' He']. split.
  - destruct Hs as [->|(a & b & -> & -> & Hab)]; [by left|]. right.
    destruct Hs' as [|(x & y & -> & [= <-] & Hxy)]; [done|].
    exists x, a. split; [done|]. split; [done|]. by etrans.
  - destruct He as [->|(a & b & -> & -> & Hab)]; [by left|]. right.
    destruct He' as [|(x & y & -> & [= <-] & Hxy)]; [done|].
    exists x, a. split; [done|]. split; [done|]. by etrans.
Qed.

(** X20.  Narrowing the window can only exclude rows: on the same elapsed
    values, every row included under the narrower window is included under
    the wider one, and the values selected for a column are no more than
    before. *)
Theorem narrower_window_excludes {A : Type} (tsec : list float) (xs : list A)
    (s e s' e' : option float) :
  start_not_later s s' ->
  end_not_earlier e e' ->
  (forall i : nat,
      build_mask (length tsec) tsec s' e' !! i = Some true ->
      build_mask (length tsec) tsec s e !! i = Some true) /\
  length (select_mask xs (build_mask (length tsec) tsec s' e'))
  <= length (select_mask xs (build_mask (length tsec) tsec s e)).
Proof.
  intros Hs He.
  assert (Hbit : forall i t, tsec !! i = Some t ->
                 mask_bit t s' e' = true -> mask_bit t s e = true).
  { intros i t _ H. apply mask_bit_inside. apply mask_bit_inside in H.
    by apply (inside_window_wider t s e s' e'). }
  split.
  - intros i Hi.
    assert (Hlt : i < length tsec).
    { apply lookup_lt_Some in Hi. by rewrite build_mask_length in Hi. }
    destruct (lookup_lt_is_Some_2 tsec i Hlt) as [t Ht].
    rewrite (build_mask_lookup _ _ _ _ _ _ Hlt Ht) in Hi.
    rewrite (build_mask_lookup _ _ _ _ _ _ Hlt Ht).
    injection Hi as Hi. f_equal. by apply (Hbit i t).
  - apply select_mask_length_le.
    apply Forall2_same_length_lookup_2.
    { by rewrite !build_mask_length. }
    intros i b1 b2 H1 H2 ->.
    assert (Hlt : i < length tsec).
    { apply lookup_lt_Some in H1. by rewrite build_mask_length in H1. }
    destruct (lookup_lt_is_Some_2 tsec i Hlt) as [t Ht].
    rewrite (build_mask_lookup _ _ _ _ _ _ Hlt Ht) in H1.
    rewrite (build_mask_lookup _ _ _ _ _ _ Hlt Ht) in H2.
    injection H1 as H1. injection H2 as <-. by apply (Hbit i t).
Qed.

Lemma select_mask_none {A : Type} (xs : list A) (mask : list bool) :
  Forall (fun b => b = false) mask -> select_mask xs mask = [].
Proof.
  intros H. revert xs. induction H as [|b mask -> _ IH]; intros [|x xs]; simpl; auto.
Qed.

Lemma preview_vals_none df mask col :
  Forall (fun b => b = false) mask -> preview_vals df mask col = Ok [].
Proof.
  intros H. unfold preview_vals. destruct (in_columns col df) eqn:Hin; [|done].
  destruct (in_columns_getitem _ _ Hin) as [c ->]. simpl.
  by rewrite select_mask_none.
Qed.

(** X21.  When the window excludes every row, each known metric of each
    slot is missing, whether its column is in the table or not. *)
Theorem excluded_rows_give_missing (df : DataFrame) (mask : list bool)
    (metric_types : list string) (axis_map : list (string * string)) :
  Forall (fun b => b = false) mask ->
  Forall known_metric metric_types ->
  exists cells : list pyval,
    preview_slots df mask metric_types axis_map = Ok cells /\
    length cells = length axis_map * length metric_types /\
    Forall (fun v => v = PFloat NaN) cells.
Proof.
  intros Hm Hk. induction axis_map as [|[a col] rest (cells & Hc & Hlen & Hall)]; simpl.
  - exists []. by repeat split.
  - rewrite (preview_vals_none _ _ _ Hm), Hc. simpl. eexists. split; [done|].
    rewrite (metrics_empty _ Hk). split.
    + rewrite length_app, length_map, length_replicate, Hlen. lia.
    + apply Forall_app. split; [|done].
      apply Forall_forall. intros v Hv.
      apply list_elem_of_In, in_map_iff in Hv as (x & <- & Hx).
      apply list_elem_of_In, elem_of_replicate in Hx as [-> _]. done.
Qed.

Lemma select_mask_all {A : Type} (xs : list A) :
  select_mask xs (replicate (length xs) true) = xs.
Proof. induction xs as [|x xs IH]; simpl; [done|]. by rewrite IH. Qed.

Lemma getitem_in_columns df col xs :
  df_getitem df col = Ok xs -> in_columns col df = true.
Proof.
  intros H. destruct (in_columns col df) eqn:Hin; [done|].
  by rewrite (df_getitem_absent _ _ Hin) in H.
Qed.

(** X22.  Without bounds every row contributes: the values of a bound
    column are the whole column, coerced to numbers. *)
Theorem unbounded_window_all_rows (df : DataFrame) (col : string) (c : list cell)
    (tsec : list float) :
  df_wf df ->
  df_getitem df col = Ok c ->
  preview_vals df (build_mask (df_len df) tsec None None) col
  = Ok (to_numeric_coerce c).
Proof.
  intros Hwf Hc. unfold preview_vals.
  rewrite (getitem_in_columns _ _ _ Hc), Hc. simpl. unfold build_mask.
  rewrite <- (df_getitem_length df col c (df_len df) Hwf Hc).
  by rewrite select_mask_all.
Qed.

(** X23.  A window whose bounds cover every elapsed value selects the same
    rows as no window, provided no elapsed value is missing. *)
Theorem covering_window_unbounded (tsec : list float) (s e : Qc) :
  Forall (fun t => exists a : Qc, t = Num a /\ (s <= a)%Qc /\ (a <= e)%Qc) tsec ->
  build_mask (length tsec) tsec (Some (Num s)) (Some (Num e))
  = build_mask (length tsec) tsec None None.
Proof.
  intros Hall. apply list_eq. intros i.
  destruct (decide (i < length tsec)) as [Hlt|Hge].
  - destruct (lookup_lt_is_Some_2 tsec i Hlt) as [t Ht].
    rewrite !(build_mask_lookup _ _ _ _ _ _ Hlt Ht). f_equal.
    destruct (proj1 (Forall_lookup _ _) Hall i t Ht) as (a & -> & Hs & He).
    unfold mask_bit. simpl.
    by rewrite !bool_decide_eq_true_2.
  - rewrite !lookup_ge_None_2; [done| |]; rewrite build_mask_length; lia.
Qed.

(** ** Rows and labels of the summary *)

Lemma preview_slots_total df mask metric_types axis_map :
  exists cells, preview_slots df mask metric_types axis_map = Ok cells.
Proof.
  induction axis_map as [|[a col] rest [cells Hc]]; simpl; [by eexists|].
  destruct (preview_vals_total df mask col) as (vals & -> & _). simpl.
  rewrite Hc. simpl. by eexists.
Qed.

Lemma preview_row_total df f time_col axis_map metric_types start end_ :
  in_columns time_col df = true ->
  exists cells,
    preview_row df f time_col axis_map metric_types start end_
    = Ok (PStr (basename f) :: cells).
Proof.
  intros Hin. unfold preview_row.
  destruct (in_columns_getitem _ _ Hin) as [xs Hxs].
  destruct (extract_datetime_col_length _ _ _ Hxs) as (tsec & -> & _). simpl.
  destruct (preview_slots_total df (build_mask (df_len df) tsec start end_)
              metric_types axis_map) as [cells ->].
  simpl. by eexists.
Qed.

(** X24.  The summary loop never fails, for any metric names: it yields one
    row per selected file that is cached with the time column, in the order
    of the selection and headed by the display name of the file; the other
    files are passed over. *)
Theorem preview_rows_names (loaded : gmap string DataFrame) (time_col : string)
    (axis_map : list (string * string)) (metric_types : list string)
    (start end_ : option float) (files : list string) :
  exists rows : list (list pyval),
    preview_rows loaded time_col axis_map metric_types start end_ files = Ok rows /\
    map (fun row => row !! 0) rows
    = map (fun f => Some (PStr (basename f)))
          (List.filter (processed loaded time_col) files).
Proof.
  induction files as [|f rest (rows & Hrows & Hnames)]; simpl; [by exists []|].
  unfold processed at 1. destruct (loaded !! f) as [df|]; [|by exists rows].
  destruct (in_columns time_col df) eqn:Ht; simpl; [|by exists rows].
  destruct (preview_row_total df f time_col axis_map metric_types start end_ Ht)
    as [cells ->].
  simpl. rewrite Hrows. simpl. eexists. split; [done|]. simpl. by rewrite Hnames.
Qed.

(** X25.  The labels line up with the values of a row: the label at
    position 1 + i * (number of metrics) + j pairs the column of slot i with
    metric j. *)
Theorem preview_columns_label (axis_map : list (string * string))
    (metric_types : list string) (i j : nat) (a col mt : string) :
  axis_map !! i = Some (a, col) ->
  metric_types !! j = Some mt ->
  preview_columns axis_map metric_types !! (1 + i * length metric_types + j)
  = Some (col ++ "-" ++ mt)%string.
Proof.
  intros Hi Hj. unfold preview_columns. simpl.
  assert (Hjlt : j < length metric_types) by (by apply lookup_lt_Some in Hj).
  revert i Hi. induction axis_map as [|[b c] rest IH]; intros i Hi; [done|].
  simpl. destruct i as [|i]; simpl in Hi.
  - injection Hi as -> ->. simpl.
    rewrite lookup_app_l by (by rewrite length_map).
    by rewrite lookup_map, Hj.
  - rewrite lookup_app_r by (rewrite length_map; lia).
    rewrite length_map.
    replace (S i * length metric_types + j - length metric_types)
      with (i * length metric_types + j) by lia.
    by apply IH.
Qed.

(** ** The methods on top of the loader *)

(** X26.  Whenever [preview_summary] gets as far as its table, the table
    has no row: the cache it has just rebuilt is empty, so no selected file
    passes the guard of the loop. *)
Theorem preview_summary_no_rows (w w' : EngineTestDataExplorer)
    (answer : string * bool) (boxes : list dialog) (tbl : summary_table) :
  preview_summary w answer = (w', boxes, Ok (Some tbl)) ->
  loaded_dfs w' = ∅ /\ fst tbl = [].
Proof.
  unfold preview_summary.
  destruct (load_selected_dataframes w) as [[w1 bx]|] eqn:Hl; [|done].
  pose proof (load_selected_dataframes_cache _ _ _ Hl) as Hc.
  destruct (get_selected_files w1) as [[|f fs]|]; [done| |done].
  destruct (get_selected_summary_metrics w1 answer) as [[mts w2]|] eqn:Hm; [|done].
  apply selected_metrics_builtin in Hm as [-> _].
  destruct (get_time_window w1) as [start end_].
  rewrite Hc, preview_rows_empty_cache.
  intros Heq. injection Heq as <- _ <-. by split.
Qed.



Lemma plot_curves_empty_cache time_col col color files :
  plot_curves ∅ time_col col color files = Ok [].
Proof.
  induction files as [|f rest IH]; simpl; [done|]. by rewrite lookup_empty.
Qed.

Lemma plot_axes_empty_cache time_col files idx axis_map :
  exists axes,
    plot_axes ∅ time_col files idx axis_map = Ok axes /\
    Forall (fun ax => snd ax = []) axes.
Proof.
  revert idx. induction axis_map as [|[a col] rest IH]; intros idx; simpl.
  - by exists [].
  - destruct (String.eqb col ""); [apply IH|].
    rewrite plot_curves_empty_cache. simpl.
    destruct (IH (S idx)) as (axes & -> & Hall). simpl.
    eexists. split; [done|]. by constructor.
Qed.

(** X28.  [plot_data] never draws a curve: whenever it gets as far as
    drawing, every axis it sets up is left without a line. *)
Theorem plot_data_no_curve (w w' : EngineTestDataExplorer) (overlay : bool)
    (boxes : list dialog) (axes : list (string * list curve)) :
  plot_data w overlay = (w', boxes, Ok (Some axes)) ->
  Forall (fun ax => snd ax = []) axes.
Proof.
  unfold plot_data.
  destruct (load_selected_dataframes w) as [[w1 bx]|] eqn:Hl; [|done].
  rewrite (load_selected_dataframes_cache _ _ _ Hl).
  destruct (get_selected_files w1) as [[|f fs]|]; [done| |done].
  destruct (_ || _); [done|].
  destruct (plot_axes_empty_cache (get_selected_time_column w1) (f :: fs) 0
              (get_axis_column_mapping w1)) as (ax & Hax & Hall).
  rewrite Hax. simpl.
  destruct overlay.
  - intros Heq. by injection Heq as _ _ <-.
  - destruct (_ =? 0)%nat; [done|]. intros Heq. by injection Heq as _ _ <-.
Qed.

Lemma export_frames_empty_cache time_col axis_map files :
  export_frames ∅ time_col axis_map files = Ok [].
Proof.
  induction files as [|f rest IH]; simpl; [done|]. by rewrite lookup_empty.
Qed.

(** X29.  With files checked, [export_plot_csv] never writes a file,
    whatever the save dialog answers: it empties the cache, reports the load
    errors and then that there is no data to export. *)
Theorem export_plot_csv_no_data (w : EngineTestDataExplorer) (fname : option string)
    (f : string) (fs : list string) :
  get_selected_files w = Ok (f :: fs) ->
  export_plot_csv w fname
  = (set_loaded_dfs ∅ w,
     [Warning "File Load Errors"
        (String.concat newline
           (map (fun f => (basename f ++ ": name 'filepath' is not defined")%string)
                (f :: fs)));
      Warning "Export" "No data to export."],
     Ok None).
Proof.
  intros Hsel. unfold export_plot_csv.
  rewrite (load_selected_dataframes_eq _ _ Hsel).
  change (get_selected_files (set_loaded_dfs ∅ w)) with (get_selected_files w).
  rewrite Hsel. simpl loaded_dfs. by rewrite export_frames_empty_cache.
Qed.

(** ** Merging the plotted data *)

Lemma frame_set_rect col vals fr n :
  Forall (fun c => length (snd c) = n) fr -> length vals = n ->
  Forall (fun c => length (snd c) = n) (frame_set col vals fr) /\
  frame_set col vals fr <> [].
Proof.
  intros Hfr Hv. induction Hfr as [|[c v] fr Hc Hfr [IH _]]; simpl.
  - split; [by repeat constructor|done].
  - destruct (String.eqb c col); split; try done; by constructor.
Qed.

Lemma export_columns_of_rect df axis_map outdf n :
  Forall (fun cx => length (snd cx) = n) df ->
  Forall (fun c => length (snd c) = n) outdf -> outdf <> [] ->
  exists fr,
    export_columns_of df axis_map outdf = Ok fr /\
    Forall (fun c => length (snd c) = n) fr /\ fr <> [].
Proof.
  intros Hdf. revert outdf.
  induction axis_map as [|[a col] rest IH]; intros outdf Hout Hne; simpl.
  - by exists outdf.
  - destruct (negb (String.eqb col "") && in_columns col df) eqn:Hg; [|by apply IH].
    apply andb_true_iff in Hg as [_ Hin].
    destruct (in_columns_getitem _ _ Hin) as [c Hc]. rewrite Hc. simpl.
    assert (Hlen : length (to_numeric_coerce c) = n).
    { unfold to_numeric_coerce. rewrite length_map.
      by apply (df_getitem_length df col). }
    destruct (frame_set_rect col _ _ _ Hout Hlen) as [Hr Hn].
    by apply IH.
Qed.

Lemma frame_len_rect fr n :
  Forall (fun c => length (snd c) = n) fr -> fr <> [] -> frame_len fr = n.
Proof. intros H Hne. destruct H as [|[c v] fr Hc _]; [done|]. exact Hc. Qed.

Lemma frame_column_length col fr n :
  Forall (fun c => length (snd c) = n) fr -> fr <> [] ->
  length (frame_column col fr) = n.
Proof.
  intros H Hne. unfold frame_column.
  destruct (frame_get col fr) as [v|] eqn:Hg; simpl.
  - clear Hne. induction H as [|[c u] fr Hc _ IH]; simpl in Hg; [done|].
    destruct (String.eqb c col); [by injection Hg as <-|by apply IH].
  - by rewrite length_replicate, (frame_len_rect _ _ H Hne).
Qed.

Lemma export_frames_rect loaded time_col axis_map files :
  (forall f df, loaded !! f = Some df -> df_wf df) ->
  exists out,
    export_frames loaded time_col axis_map files = Ok out /\
    Forall2 (fun fr df => Forall (fun c => length (snd c) = df_len df) fr /\ fr <> [])
            out (processed_tables loaded time_col files).
Proof.
  intros Hwf. induction files as [|f rest (out & Hout & HF)]; simpl.
  - by exists [].
  - destruct (loaded !! f) as [df|] eqn:Hl; [|by exists out].
    destruct (in_columns time_col df) eqn:Ht; simpl; [|by exists out].
    destruct (in_columns_getitem _ _ Ht) as [xs Hxs].
    destruct (extract_datetime_col_length _ _ _ Hxs) as (tsec & -> & Hlen). simpl.
    pose proof (Hwf _ _ Hl) as Hdf.
    assert (Hts : length tsec = df_len df).
    { rewrite Hlen. by apply (df_getitem_length df time_col). }
    destruct (export_columns_of_rect df axis_map [("Time [s]", tsec)] (df_len df))
      as (fr & -> & Hr & Hne); [done|by repeat constructor|done|].
    simpl. rewrite Hout. simpl. eexists. split; [done|]. by constructor.
Qed.

(** X30.  The export of the plotted data concatenates, it does not align:
    over tables whose columns all have the length of the table, the loop
    over the files never fails, it builds one frame per file that is cached
    with the time column, and every column of the merged table has as many
    rows as those tables together. *)
Theorem export_frames_concatenated (loaded : gmap string DataFrame) (time_col : string)
    (axis_map : list (string * string)) (files : list string) :
  (forall (f : string) (df : DataFrame), loaded !! f = Some df -> df_wf df) ->
  exists out : list frame,
    export_frames loaded time_col axis_map files = Ok out /\
    length out = length (processed_tables loaded time_col files) /\
    Forall (fun c => length (snd c)
                     = sum_list (map df_len (processed_tables loaded time_col files)))
           (concat_frames out).
Proof.
  intros Hwf.
  destruct (export_frames_rect loaded time_col axis_map files Hwf) as (out & Hout & HF).
  exists out. split; [done|]. split; [exact (Forall2_length _ _ _ HF)|].
  unfold concat_frames. apply Forall_forall. intros c Hc.
  apply list_elem_of_In, in_map_iff in Hc as (col & <- & _). simpl.
  clear Hout. induction HF as [|fr df out dfs [Hr Hne] _ IH]; simpl; [done|].
  by rewrite length_app, IH, (frame_column_length _ _ _ Hr Hne).
Qed.

End FurtherProperties.
(** * The program on the demo runtime *)

#[local] Existing Instance Demo.runtime.

(** C1.  One checked file, "/data/A.txt", which [read_csv] parses: the loop
    names the undefined [filepath] where its variable is [f], the
    [NameError] is caught as a failure of the file, and the cache ends up
    without the file while an error entry is shown for it. *)
Theorem load_drops_parseable_file :
  let w := Demo.with_files [true; false; false] Demo.window in
  get_selected_files w = Ok ["/data/A.txt"] /\
  read_csv "/data/A.txt" None "." = Ok Demo.file_A /\
  exists w' : EngineTestDataExplorer,
    load_selected_dataframes w
    = Ok (w', [Warning "File Load Errors" "A.txt: name 'filepath' is not defined"]) /\
    loaded_dfs w' !! "/data/A.txt" = None.
Proof.
  intros w.
  assert (Hsel : get_selected_files w = Ok ["/data/A.txt"]) by reflexivity.
  split; [done|]. split; [reflexivity|].
  unfold load_selected_dataframes. rewrite Hsel. unfold rbind.
  rewrite load_files_all_fail. eexists. split; [reflexivity|]. simpl.
  apply lookup_empty.
Qed.

(** C4.  On the files of the demo folder [unique_numeric_columns] returns
    no column set at all: its first statement reads [self], a name that a
    module-level function does not have, and the [NameError] is raised
    outside the two [try] blocks.  The loop body alone would have found the
    three numeric columns of "/data/A.txt". *)
Theorem unique_numeric_columns_no_result :
  unique_numeric_columns ["/data/A.txt"] = Raise (NameError "self") /\
  unique_numeric_columns ["/data/A.txt"; "/data/C.txt"] = Raise (NameError "self") /\
  numeric_columns_of Demo.file_A [] = ["Time"; "RPM"; "Temp"].
Proof. repeat split; by_running. Qed.

(** C2, as stated, fails on the freshly built window: it has one slot, and
    the fourth call of [add_axis_row] is already turned down. *)
Lemma four_adds_then_reject_fails : ~ four_adds_then_reject Demo.window.
Proof.
  intros H. destruct (H eq_refl) as [HF _].
  assert (E : snd (add_axis_rows 4 Demo.window)
              = [Returned; Returned; Returned;
                 Showed (Warning "Axis Limit" "Maximum 4 Y axes supported.")])
    by by_running.
  rewrite E in HF.
  apply (Forall_lookup_1 _ _ 3
           (Showed (Warning "Axis Limit" "Maximum 4 Y axes supported.")) HF);
    reflexivity.
Qed.

Lemma add_axis_row_capacity_witness :
  slot_count Demo.window = 1 /\
  slot_count (fst (add_axis_row (fst (add_axis_row (fst (add_axis_row Demo.window)))))) = 4 /\
  rejected (snd (add_axis_row
                   (fst (add_axis_row (fst (add_axis_row (fst (add_axis_row Demo.window)))))))).
Proof.
  assert (H1 : slot_count Demo.window = 1) by reflexivity.
  split; [exact H1|].
  destruct (add_axis_row_capacity Demo.window H1)
    as (_ & _ & H4 & _ & _ & _ & _ & _ & Hrej & _).
  split; [exact H4|exact Hrej].
Defined.

(** C3, as stated, fails on "/data/B.txt": its second time value is no
    timestamp, and the first row, which is one, does not come out as 0
    seconds but as a missing value. *)
Lemma per_row_tolerant_fails : ~ per_row_tolerant Demo.file_B "Time".
Proof.
  intros H.
  destruct (H [CStr "2024-01-01 00:00:00"; CStr "garbage"; CStr "2024-01-01 00:00:10"]
              eq_refl) as (ys & Hys & Hrow).
  assert (E : extract_datetime_col Demo.file_B "Time" = Ok [NaN; NaN; NaN]) by by_running.
  rewrite E in Hys. injection Hys as <-.
  specialize (Hrow 0 (CStr "2024-01-01 00:00:00") eq_refl).
  assert (T : to_datetime1 (CStr "2024-01-01 00:00:00") = Some (Some 1704067200000000000%Z))
    by (vm_compute; reflexivity).
  rewrite T in Hrow.
  assert (F : first_parsed [CStr "2024-01-01 00:00:00"; CStr "garbage";
                            CStr "2024-01-01 00:00:10"]
              = Some 1704067200000000000%Z) by (vm_compute; reflexivity).
  specialize (Hrow _ F). discriminate Hrow.
Qed.

Lemma extract_datetime_col_whole_column_witness :
  df_getitem Demo.file_B "Time"
  = Ok [CStr "2024-01-01 00:00:00"; CStr "garbage"; CStr "2024-01-01 00:00:10"] /\
  exists ys : list float,
    extract_datetime_col Demo.file_B "Time" = Ok ys /\ length ys = 3.
Proof.
  assert (H : df_getitem Demo.file_B "Time"
              = Ok [CStr "2024-01-01 00:00:00"; CStr "garbage"; CStr "2024-01-01 00:00:10"])
    by reflexivity.
  split; [exact H|].
  destruct (extract_datetime_col_whole_column Demo.file_B "Time" _ H)
    as (ys & Hys & Hlen & _).
  exists ys. split; [exact Hys|exact Hlen].
Defined.

Lemma normalize_length_and_origin_witness :
  df_wf Demo.file_C /\
  df_getitem Demo.file_C "Time"
  = Ok [CStr "2024-01-01 00:00:00"; CStr "2024-01-01 00:00:05"; CStr "2024-01-01 00:00:10"] /\
  to_datetime [CStr "2024-01-01 00:00:00"; CStr "2024-01-01 00:00:05";
               CStr "2024-01-01 00:00:10"]
  = Ok [Some 1704067200000000000%Z; Some 1704067205000000000%Z;
        Some 1704067210000000000%Z] /\
  exists ys : list float,
    extract_datetime_col Demo.file_C "Time" = Ok ys /\
    length ys = 3 /\ ys !! 0 = Some (Num (Q2Qc 0)).
Proof.
  assert (Hwf : df_wf Demo.file_C) by (repeat constructor).
  assert (Hcol : df_getitem Demo.file_C "Time"
                 = Ok [CStr "2024-01-01 00:00:00"; CStr "2024-01-01 00:00:05";
                       CStr "2024-01-01 00:00:10"]) by reflexivity.
  assert (Hdt : to_datetime [CStr "2024-01-01 00:00:00"; CStr "2024-01-01 00:00:05";
                             CStr "2024-01-01 00:00:10"]
                = Ok [Some 1704067200000000000%Z; Some 1704067205000000000%Z;
                      Some 1704067210000000000%Z]) by (vm_compute; reflexivity).
  split; [exact Hwf|]. split; [exact Hcol|]. split; [exact Hdt|].
  destruct (normalize_length_and_origin Demo.file_C "Time" _ _ Hwf Hcol Hdt)
    as (ys & Hys & Hlen & H0).
  exists ys. split; [exact Hys|]. split; [exact Hlen|].
  apply (H0 (CStr "2024-01-01 00:00:00") 1704067200000000000%Z); vm_compute; reflexivity.
Defined.

Lemma time_window_numeric_only_witness :
  py_float "" = None /\
  get_time_window (Demo.with_edits "2024-01-01 00:00:00" " 1.5 " Demo.window)
  = (None, Some (Demo.flt 3 2)).
Proof.
  assert (H : py_float "" = None) by reflexivity.
  split; [exact H|].
  destruct (time_window_numeric_only
              (Demo.with_edits "2024-01-01 00:00:00" " 1.5 " Demo.window) H)
    as (Hs & He & _).
  rewrite (surjective_pairing (get_time_window _)), Hs, He.
  by_running.
Defined.

Lemma single_value_metrics_witness :
  dropna [NaN; Demo.flt 5 1; NaN] = [Q2Qc 5] /\
  preview_metric "std" [NaN; Demo.flt 5 1; NaN] = [NaN] /\
  preview_metric "mean" [NaN; Demo.flt 5 1; NaN] = [Demo.flt 5 1].
Proof.
  assert (H : dropna [NaN; Demo.flt 5 1; NaN] = [Q2Qc 5]) by reflexivity.
  split; [exact H|].
  destruct (single_value_metrics _ _ H) as (Hstd & Hmean & _).
  split; [exact Hstd|exact Hmean].
Defined.

Lemma summary_mask_inclusive_witness :
  df_wf Demo.file_C /\
  in_columns "Time" Demo.file_C = true /\
  exists tsec : list float,
    extract_datetime_col Demo.file_C "Time" = Ok tsec /\
    length (build_mask (df_len Demo.file_C) tsec
              (Some (Demo.flt 5 1)) (Some (Demo.flt 10 1))) = 3.
Proof.
  assert (Hwf : df_wf Demo.file_C) by (repeat constructor).
  assert (Hin : in_columns "Time" Demo.file_C = true) by (vm_compute; reflexivity).
  split; [exact Hwf|]. split; [exact Hin|].
  destruct (summary_mask_inclusive Demo.file_C "Time"
              (Some (Demo.flt 5 1)) (Some (Demo.flt 10 1)) Hwf Hin)
    as (tsec & Hts & _ & Hlen & _).
  exists tsec. split; [exact Hts|exact Hlen].
Defined.

Lemma summary_table_shape_witness :
  Forall known_metric ["mean"; "std"] /\
  exists rows : list (list pyval),
    preview_rows {["/data/A.txt" := Demo.file_A]} "Time"
      [("Primary Y", "RPM"); ("Secondary Y", "")] ["mean"; "std"]
      None None ["/data/A.txt"; "/data/B.txt"] = Ok rows /\
    Forall (fun row => length row = 5) rows.
Proof.
  assert (Hk : Forall known_metric ["mean"; "std"]) by by_running.
  split; [exact Hk|].
  destruct (summary_table_shape {["/data/A.txt" := Demo.file_A]} "Time"
              [("Primary Y", "RPM"); ("Secondary Y", "")] ["mean"; "std"]
              None None ["/data/A.txt"; "/data/B.txt"] Hk)
    as (rows & Hrows & _ & Hall & _).
  exists rows. split; [exact Hrows|exact Hall].
Defined.

(** ** The further properties on the demo runtime *)

Lemma find_data_files_basename_witness :
  (forall (dirpath : string) (filenames : list string) (fname : string),
      (dirpath, filenames) ∈ walk "/data" Sample.tree -> fname ∈ filenames ->
      contains "/" fname = false) /\
  has_data_ext data_exts (basename "/data/sub/c.tsv") = true.
Proof.
  assert (H : forall (dirpath : string) (filenames : list string) (fname : string),
             (dirpath, filenames) ∈ walk "/data" Sample.tree -> fname ∈ filenames ->
             contains "/" fname = false).
  { assert (HF : Forall (fun e => Forall (fun fname => contains "/" fname = false) (snd e))
                        (walk "/data" Sample.tree)) by by_running.
    intros dirpath filenames fname He Hf.
    exact (proj1 (Forall_forall _ _)
             (proj1 (Forall_forall _ _) HF (dirpath, filenames) He) fname Hf). }
  split; [exact H|].
  apply (find_data_files_basename "/data" Sample.tree data_exts H).
  by_running.
Defined.

Lemma get_selected_files_checked_witness :
  length (file_list (Demo.with_files [true; false; true] Demo.window))
  <= length (filtered_files (Demo.with_files [true; false; true] Demo.window)) /\
  exists sel : list string,
    get_selected_files (Demo.with_files [true; false; true] Demo.window) = Ok sel /\
    sel = ["/data/A.txt"; "/data/C.txt"].
Proof.
  assert (H : length (file_list (Demo.with_files [true; false; true] Demo.window))
              <= length (filtered_files (Demo.with_files [true; false; true] Demo.window)))
    by (vm_compute; lia).
  split; [exact H|].
  destruct (get_selected_files_checked _ H) as (sel & Hsel & Heq & _).
  exists sel. split; [exact Hsel|]. rewrite Heq. reflexivity.
Defined.

Lemma get_selected_files_out_of_range_witness :
  file_list (set_files [("A.txt", true)] [] Demo.window) !! 0 = Some ("A.txt", true) /\
  length (filtered_files (set_files [("A.txt", true)] [] Demo.window)) <= 0 /\
  get_selected_files (set_files [("A.txt", true)] [] Demo.window)
  = Raise (IndexError "list index out of range").
Proof.
  assert (H1 : file_list (set_files [("A.txt", true)] [] Demo.window) !! 0
               = Some ("A.txt", true)) by reflexivity.
  assert (H2 : length (filtered_files (set_files [("A.txt", true)] [] Demo.window)) <= 0)
    by (simpl; lia).
  split; [exact H1|]. split; [exact H2|].
  exact (get_selected_files_out_of_range _ 0 "A.txt" H1 H2).
Defined.

Lemma load_selected_dataframes_replaces_witness :
  get_selected_files (Demo.with_files [true; true; false] Demo.window)
  = Ok ["/data/A.txt"; "/data/B.txt"] /\
  exists (w' : EngineTestDataExplorer) (boxes : list dialog),
    load_selected_dataframes (Demo.with_files [true; true; false] Demo.window)
    = Ok (w', boxes) /\ length boxes = 1.
Proof.
  assert (H : get_selected_files (Demo.with_files [true; true; false] Demo.window)
              = Ok ["/data/A.txt"; "/data/B.txt"]) by reflexivity.
  split; [exact H|].
  eexists _, _. split; [exact (load_selected_dataframes_replaces _ _ H)|reflexivity].
Defined.

Lemma populate_column_choices_selection_witness :
  get_selected_files (Demo.with_files [false; true; true] Demo.window)
  = Ok ["/data/B.txt"; "/data/C.txt"] /\
  populate_column_choices (Demo.with_files [false; true; true] Demo.window)
  = Raise (NameError "self").
Proof.
  assert (H : get_selected_files (Demo.with_files [false; true; true] Demo.window)
              = Ok ["/data/B.txt"; "/data/C.txt"]) by reflexivity.
  split; [exact H|].
  exact (proj1 (populate_column_choices_selection _ _ _ H)).
Defined.

Lemma populate_column_choices_blank_witness :
  populate_column_choices (Sample.with_columns Demo.window) = Ok Demo.window /\
  get_selected_time_column Demo.window = "" /\
  Forall (fun ac => snd ac = "") (get_axis_column_mapping Demo.window).
Proof.
  assert (H : populate_column_choices (Sample.with_columns Demo.window) = Ok Demo.window)
    by (vm_compute; reflexivity).
  split; [exact H|].
  destruct (populate_column_choices_blank _ _ H) as (_ & Ht & _ & Hall).
  split; [exact Ht|exact Hall].
Defined.

Lemma axis_invariant_kept_witness :
  axis_invariant Demo.window /\
  axis_invariant
    (fold_left axis_step
       [AddAxis; AddAxis; RemoveAxis 0; AddAxis; AddAxis; AddAxis; RemoveAxis 7]
       Demo.window).
Proof.
  assert (H : axis_invariant Demo.window).
  { unfold axis_invariant. vm_compute. lia. }
  split; [exact H|].
  exact (axis_invariant_kept Demo.window _ H).
Defined.

Lemma add_then_remove_last_witness :
  axis_invariant Demo.window /\
  slot_count Demo.window < 4 /\
  axis_rows (fst (remove_axis_row (slot_count Demo.window) (fst (add_axis_row Demo.window))))
  = axis_rows Demo.window.
Proof.
  assert (H : axis_invariant Demo.window).
  { unfold axis_invariant. vm_compute. lia. }
  assert (Hlt : slot_count Demo.window < 4) by (vm_compute; lia).
  split; [exact H|]. split; [exact Hlt|].
  destruct (add_then_remove_last Demo.window H Hlt) as (_ & _ & Hr & _).
  exact Hr.
Defined.

Lemma get_selected_summary_metrics_builtin_witness :
  get_selected_summary_metrics (Sample.with_summary_type 2 Demo.window) ("", false)
  = Ok (["min"; "max"], Sample.with_summary_type 2 Demo.window) /\
  (["min"; "max"] = ["mean"] \/ ["min"; "max"] = ["median"] \/
   ["min"; "max"] = ["min"; "max"] \/ ["min"; "max"] = ["std"]).
Proof.
  assert (H : get_selected_summary_metrics (Sample.with_summary_type 2 Demo.window)
                ("", false)
              = Ok (["min"; "max"], Sample.with_summary_type 2 Demo.window))
    by (vm_compute; reflexivity).
  split; [exact H|].
  exact (proj2 (get_selected_summary_metrics_builtin _ _ _ _ H)).
Defined.

Lemma get_selected_summary_metrics_custom_witness :
  startswith
    (lower (cb_currentText (combo_summary_type (Sample.with_summary_type 4 Demo.window))))
    "custom" = true /\
  get_selected_summary_metrics (Sample.with_summary_type 4 Demo.window) ("mean,std", true)
  = Raise (NameError "QInputDialog").
Proof.
  assert (H : startswith
                (lower (cb_currentText
                          (combo_summary_type (Sample.with_summary_type 4 Demo.window))))
                "custom" = true) by (vm_compute; reflexivity).
  split; [exact H|].
  exact (get_selected_summary_metrics_custom _ _ H).
Defined.

Lemma extract_datetime_col_missing_witness :
  in_columns "Clock" Demo.file_A = false /\
  extract_datetime_col Demo.file_A "Clock" = Raise (KeyError "Clock").
Proof.
  assert (H : in_columns "Clock" Demo.file_A = false) by (vm_compute; reflexivity).
  split; [exact H|].
  exact (extract_datetime_col_missing _ _ H).
Defined.

Lemma extract_datetime_col_shift_witness :
  df_getitem Demo.file_C "Time"
  = Ok [CStr "2024-01-01 00:00:00"; CStr "2024-01-01 00:00:05"; CStr "2024-01-01 00:00:10"] /\
  df_getitem Sample.file_D "Clock"
  = Ok [CStr "2024-01-01 00:01:00"; CStr "2024-01-01 00:01:05"; CStr "2024-01-01 00:01:10"] /\
  extract_datetime_col Sample.file_D "Clock" = extract_datetime_col Demo.file_C "Time".
Proof.
  assert (H1 : df_getitem Demo.file_C "Time"
               = Ok [CStr "2024-01-01 00:00:00"; CStr "2024-01-01 00:00:05";
                     CStr "2024-01-01 00:00:10"]) by reflexivity.
  assert (H2 : df_getitem Sample.file_D "Clock"
               = Ok [CStr "2024-01-01 00:01:00"; CStr "2024-01-01 00:01:05";
                     CStr "2024-01-01 00:01:10"]) by reflexivity.
  split; [exact H1|]. split; [exact H2|].
  apply (extract_datetime_col_shift _ _ _ _ _ _
           [Some 1704067200000000000%Z; Some 1704067205000000000%Z;
            Some 1704067210000000000%Z] 60000000000%Z H1 H2);
    vm_compute; reflexivity.
Defined.

Lemma extract_datetime_col_first_missing_witness :
  df_getitem Sample.file_E "Time"
  = Ok [CFloat NaN; CStr "2024-01-01 00:00:05"; CStr "2024-01-01 00:00:10"] /\
  exists ys : list float,
    extract_datetime_col Sample.file_E "Time" = Ok ys /\ Forall (fun y => y = NaN) ys.
Proof.
  assert (H : df_getitem Sample.file_E "Time"
              = Ok [CFloat NaN; CStr "2024-01-01 00:00:05"; CStr "2024-01-01 00:00:10"])
    by reflexivity.
  split; [exact H|].
  destruct (extract_datetime_col_first_missing _ _ _
              [Some 1704067205000000000%Z; Some 1704067210000000000%Z] H)
    as (ys & Hys & _ & Hall); [vm_compute; reflexivity|].
  exists ys. split; [exact Hys|exact Hall].
Defined.

Lemma extract_datetime_col_order_witness :
  exists (ys : list float) (ya yb : float),
    extract_datetime_col Demo.file_C "Time" = Ok ys /\
    ys !! 1 = Some ya /\ ys !! 2 = Some yb /\ fle ya yb = true.
Proof.
  destruct (extract_datetime_col_order Demo.file_C "Time"
              [CStr "2024-01-01 00:00:00"; CStr "2024-01-01 00:00:05";
               CStr "2024-01-01 00:00:10"]
              [Some 1704067200000000000%Z; Some 1704067205000000000%Z;
               Some 1704067210000000000%Z]
              1704067200000000000%Z 1704067205000000000%Z 1704067210000000000%Z 1 2)
    as (ys & ya & yb & Hys & Ha & Hb & Hle & _);
    try reflexivity; try (vm_compute; reflexivity); try lia.
  exists ys, ya, yb. repeat split; assumption.
Defined.

Lemma narrower_window_excludes_witness :
  start_not_later (Some (Demo.flt 0 1)) (Some (Demo.flt 5 1)) /\
  end_not_earlier None (Some (Demo.flt 10 1)) /\
  length (select_mask ["a"; "b"; "c"]
            (build_mask 3 [Demo.flt 0 1; Demo.flt 5 1; NaN]
               (Some (Demo.flt 5 1)) (Some (Demo.flt 10 1))))
  <= length (select_mask ["a"; "b"; "c"]
               (build_mask 3 [Demo.flt 0 1; Demo.flt 5 1; NaN]
                  (Some (Demo.flt 0 1)) None)).
Proof.
  assert (Hs : start_not_later (Some (Demo.flt 0 1)) (Some (Demo.flt 5 1))).
  { right. exists (Q2Qc 0), (Q2Qc 5). split; [reflexivity|]. split; [reflexivity|].
    apply (bool_decide_unpack _). vm_compute. exact I. }
  assert (He : end_not_earlier None (Some (Demo.flt 10 1))) by (by left).
  split; [exact Hs|]. split; [exact He|].
  exact (proj2 (narrower_window_excludes [Demo.flt 0 1; Demo.flt 5 1; NaN]
                  ["a"; "b"; "c"] _ _ _ _ Hs He)).
Defined.

Lemma excluded_rows_give_missing_witness :
  Forall (fun b => b = false) [false; false; false] /\
  Forall known_metric ["mean"; "max"] /\
  exists cells : list pyval,
    preview_slots Demo.file_A [false; false; false] ["mean"; "max"]
      [("Primary Y", "RPM"); ("Secondary Y", "Temp")] = Ok cells /\
    Forall (fun v => v = PFloat NaN) cells.
Proof.
  assert (Hm : Forall (fun b => b = false) [false; false; false])
    by (repeat constructor).
  assert (Hk : Forall known_metric ["mean"; "max"]) by by_running.
  split; [exact Hm|]. split; [exact Hk|].
  destruct (excluded_rows_give_missing Demo.file_A _ _
              [("Primary Y", "RPM"); ("Secondary Y", "Temp")] Hm Hk)
    as (cells & Hc & _ & Hall).
  exists cells. split; [exact Hc|exact Hall].
Defined.

Lemma unbounded_window_all_rows_witness :
  df_wf Demo.file_C /\
  df_getitem Demo.file_C "RPM" = Ok [Demo.num 1000; CStr "n/a"; Demo.num 1100] /\
  preview_vals Demo.file_C (build_mask (df_len Demo.file_C) [] None None) "RPM"
  = Ok (to_numeric_coerce [Demo.num 1000; CStr "n/a"; Demo.num 1100]).
Proof.
  assert (Hwf : df_wf Demo.file_C) by (repeat constructor).
  assert (Hc : df_getitem Demo.file_C "RPM"
               = Ok [Demo.num 1000; CStr "n/a"; Demo.num 1100]) by reflexivity.
  split; [exact Hwf|]. split; [exact Hc|].
  exact (unbounded_window_all_rows Demo.file_C "RPM" _ [] Hwf Hc).
Defined.

Lemma covering_window_unbounded_witness :
  Forall (fun t => exists a : Qc, t = Num a /\ (Q2Qc 0 <= a)%Qc /\ (a <= Q2Qc 10)%Qc)
         [Demo.flt 0 1; Demo.flt 5 1; Demo.flt 10 1] /\
  build_mask 3 [Demo.flt 0 1; Demo.flt 5 1; Demo.flt 10 1]
    (Some (Num (Q2Qc 0))) (Some (Num (Q2Qc 10)))
  = build_mask 3 [Demo.flt 0 1; Demo.flt 5 1; Demo.flt 10 1] None None.
Proof.
  assert (H : Forall (fun t => exists a : Qc,
                        t = Num a /\ (Q2Qc 0 <= a)%Qc /\ (a <= Q2Qc 10)%Qc)
                     [Demo.flt 0 1; Demo.flt 5 1; Demo.flt 10 1]).
  { repeat constructor.
    - exists (Q2Qc 0). split; [reflexivity|].
      split; apply (bool_decide_unpack _); vm_compute; exact I.
    - exists (Q2Qc 5). split; [reflexivity|].
      split; apply (bool_decide_unpack _); vm_compute; exact I.
    - exists (Q2Qc 10). split; [reflexivity|].
      split; apply (bool_decide_unpack _); vm_compute; exact I. }
  split; [exact H|].
  exact (covering_window_unbounded _ _ _ H).
Defined.

Lemma preview_columns_label_witness :
  [("Primary Y", "RPM"); ("Secondary Y", "Temp")] !! 1 = Some ("Secondary Y", "Temp") /\
  ["min"; "max"] !! 0 = Some "min" /\
  preview_columns [("Primary Y", "RPM"); ("Secondary Y", "Temp")] ["min"; "max"] !! 3
  = Some "Temp-min".
Proof.
  assert (H1 : [("Primary Y", "RPM"); ("Secondary Y", "Temp")] !! 1
               = Some ("Secondary Y", "Temp")) by reflexivity.
  assert (H2 : ["min"; "max"] !! 0 = Some "min") by reflexivity.
  split; [exact H1|]. split; [exact H2|].
  exact (preview_columns_label _ _ 1 0 _ _ _ H1 H2).
Defined.

Lemma preview_summary_no_rows_witness :
  preview_summary (Demo.with_files [true; false; true] Demo.window) ("", false)
  = (set_loaded_dfs ∅ (Demo.with_files [true; false; true] Demo.window),
     [Warning "File Load Errors"
        (String.concat newline
           ["A.txt: name 'filepath' is not defined";
            "C.txt: name 'filepath' is not defined"])],
     Ok (Some ([], ["File"; "-mean"]))) /\
  fst (([], ["File"; "-mean"]) : summary_table) = [].
Proof.
  assert (H : preview_summary (Demo.with_files [true; false; true] Demo.window) ("", false)
              = (set_loaded_dfs ∅ (Demo.with_files [true; false; true] Demo.window),
                 [Warning "File Load Errors"
                    (String.concat newline
                       ["A.txt: name 'filepath' is not defined";
                        "C.txt: name 'filepath' is not defined"])],
                 Ok (Some ([], ["File"; "-mean"])))) by (vm_compute; reflexivity).
  split; [exact H|].
  exact (proj2 (preview_summary_no_rows _ _ _ _ _ H)).
Defined.

Lemma plot_data_no_curve_witness :
  plot_data (Sample.with_columns (Demo.with_files [true; false; false] Demo.window)) true
  = (set_loaded_dfs ∅ (Sample.with_columns (Demo.with_files [true; false; false] Demo.window)),
     [Warning "File Load Errors" "A.txt: name 'filepath' is not defined"],
     Ok (Some [("RPM", [])])) /\
  Forall (fun ax : string * list curve => snd ax = []) [("RPM", [])].
Proof.
  assert (H : plot_data
                (Sample.with_columns (Demo.with_files [true; false; false] Demo.window)) true
              = (set_loaded_dfs ∅
                   (Sample.with_columns (Demo.with_files [true; false; false] Demo.window)),
                 [Warning "File Load Errors" "A.txt: name 'filepath' is not defined"],
                 Ok (Some [("RPM", [])]))) by (vm_compute; reflexivity).
  split; [exact H|].
  exact (plot_data_no_curve _ _ _ _ _ H).
Defined.

Lemma export_plot_csv_no_data_witness :
  get_selected_files (Demo.with_files [true; false; false] Demo.window)
  = Ok ["/data/A.txt"] /\
  snd (export_plot_csv (Demo.with_files [true; false; false] Demo.window)
         (Some "/tmp/out.csv"))
  = Ok None.
Proof.
  assert (H : get_selected_files (Demo.with_files [true; false; false] Demo.window)
              = Ok ["/data/A.txt"]) by reflexivity.
  split; [exact H|].
  by rewrite (export_plot_csv_no_data _ (Some "/tmp/out.csv") _ _ H).
Defined.

Lemma export_frames_concatenated_witness :
  (forall (f : string) (df : DataFrame), Sample.cache !! f = Some df -> df_wf df) /\
  exists out : list frame,
    export_frames Sample.cache "Time" [("Primary Y", "RPM"); ("Secondary Y", "Temp")]
      ["/data/A.txt"; "/data/B.txt"; "/data/C.txt"] = Ok out /\
    length out = 2 /\
    Forall (fun c => length (snd c) = 6) (concat_frames out).
Proof.
  assert (H : forall (f : string) (df : DataFrame),
             Sample.cache !! f = Some df -> df_wf df).
  { intros f df Hl. unfold Sample.cache in Hl.
    apply lookup_insert_Some in Hl as [[_ <-]|[_ Hl]]; [repeat constructor|].
    apply lookup_singleton_Some in Hl as [_ <-]. repeat constructor. }
  split; [exact H|].
  destruct (export_frames_concatenated Sample.cache "Time"
              [("Primary Y", "RPM"); ("Secondary Y", "Temp")]
              ["/data/A.txt"; "/data/B.txt"; "/data/C.txt"] H)
    as (out & Hout & Hlen & Hall).
  exists out. split; [exact Hout|]. split; [exact Hlen|exact Hall].
Defined.
